(** * Verification of the Gemini extraction helper

    A shallow embedding of [helpers/geminiHelper.py]: the pydantic response
    models, the content packer [_prepare_content_for_extraction] and the
    orchestrator [extract_business_data], followed by the properties the
    specification states about them.

    Conventions of the embedding:
    - a Python [str] is a Rocq [string], one [ascii] per character (the code
      points 0..255); [len] is the number of characters, as an integer;
    - a page is a Python [dict] from [str] to [str], here a [gmap string string];
    - the effects of the orchestrator (logging, the request sent to the
      generation service, a raised exception) are threaded through a small
      state-and-exception monad. *)

From Stdlib Require Import ZArith Lia Ascii String.
From stdpp Require Import base option list gmap strings.

Local Open Scope Z_scope.

(** ** Python strings *)

Module Str.

(** [len(s)] *)
Definition len (s : string) : Z := Z.of_nat (String.length s).

(** Truth value of a string: the empty string is falsy. *)
Definition truthy (s : string) : bool :=
  match s with
  | EmptyString => false
  | String _ _ => true
  end.

(** [str.isspace] on one character, for the code points below 256:
    TAB, LF, VT, FF, CR, the separators FS, GS, RS, US, the space, NEL
    and the no-break space. *)
Definition isspace (c : ascii) : bool :=
  let n := Z.of_N (N_of_ascii c) in
  ((9 <=? n) && (n <=? 13)) || ((28 <=? n) && (n <=? 32))
  || (n =? 133) || (n =? 160).

Fixpoint lstrip (s : string) : string :=
  match s with
  | EmptyString => EmptyString
  | String c s' => if isspace c then lstrip s' else s
  end.

Fixpoint rstrip (s : string) : string :=
  match s with
  | EmptyString => EmptyString
  | String c s' =>
      match rstrip s' with
      | EmptyString => if isspace c then EmptyString else String c EmptyString
      | r => String c r
      end
  end.

(** [s.strip()]: leading and trailing whitespace removed. *)
Definition strip (s : string) : string := rstrip (lstrip s).

(** [s[:n]] for a bound [n >= 0]: the first [n] characters, or all of [s]
    when it is shorter. *)
Fixpoint slice_to (n : Z) (s : string) : string :=
  match s with
  | EmptyString => EmptyString
  | String c s' => if n <=? 0 then EmptyString else String c (slice_to (n - 1) s')
  end.

(** [s[n:]] for [n >= 0]; only used to name the part a slice leaves out. *)
Fixpoint slice_from (n : Z) (s : string) : string :=
  match s with
  | EmptyString => EmptyString
  | String c s' => if n <=? 0 then s else slice_from (n - 1) s'
  end.

(** [sep.join(l)] with the empty separator. *)
Fixpoint join (l : list string) : string :=
  match l with
  | [] => EmptyString
  | s :: l' => s +:+ join l'
  end.

(** The character [c] repeated [n] times, [c * n]. *)
Definition repeat_char (n : Z) (c : ascii) : string :=
  Nat.iter (Z.to_nat n) (String c) EmptyString.

(** Every character of the string is whitespace (true of the empty string). *)
Fixpoint all_space (s : string) : Prop :=
  match s with
  | EmptyString => True
  | String c s' => isspace c = true /\ all_space s'
  end.

(** [p] is an initial segment of [s]. *)
Definition prefix_of (p s : string) : Prop := exists r, s = p +:+ r.

End Str.

(** The line feed written [\n] in the source. *)
Definition LF : string := String "010"%char EmptyString.

(** ** The content packer *)

(** A crawled page: a dict with (normally) the keys "url" and "content". *)
Abbreviation Page := (gmap string string).

Definition max_chars_per_page : Z := 50000.
Definition max_total_chars : Z := 500000.

Definition truncation_marker : string := LF +:+ "...[content truncated]".

(** [page.get("url", "Unknown URL")] and [page.get("content", "")]. *)
Definition page_url (page : Page) : string := default "Unknown URL" (page !! "url").
Definition page_content (page : Page) : string := default "" (page !! "content").

(** Lines 151-153: pages longer than the per-page cap are cut and marked. *)
Definition truncate_content (content : string) : string :=
  if Str.len content >? max_chars_per_page
  then Str.slice_to max_chars_per_page content +:+ truncation_marker
  else content.

(** Line 155: the f-string that frames one excerpt. *)
Definition frame (url content : string) : string :=
  "--- PAGE: " +:+ url +:+ " ---" +:+ LF +:+ content +:+ LF +:+ LF.

Definition page_text (page : Page) : string :=
  frame (page_url page) (truncate_content (page_content page)).

(** Line 148: the test [not content.strip()] that skips a page. *)
Definition skipped (page : Page) : bool :=
  negb (Str.truthy (Str.strip (page_content page))).

(** The state of the [for] loop: the list [formatted_pages] and the counter
    [total_chars]. *)
Record PackState := mkPackState {
  formatted_pages : list string;
  total_chars : Z
}.

(** The loop of lines 143-162, by recursion on the pages still to visit;
    [continue] goes on with the state unchanged, [break] returns it. *)
Fixpoint pack_loop (pages_data : list Page) (st : PackState) : PackState :=
  match pages_data with
  | [] => st
  | page :: rest =>
      let url := default "Unknown URL" (page !! "url") in
      let content := default "" (page !! "content") in
      if negb (Str.truthy (Str.strip content)) then pack_loop rest st
      else
        let content :=
          if Str.len content >? max_chars_per_page
          then Str.slice_to max_chars_per_page content +:+ truncation_marker
          else content in
        let page_text := frame url content in
        if total_chars st + Str.len page_text >? max_total_chars then st
        else pack_loop rest
               (mkPackState (formatted_pages st ++ [page_text])
                            (total_chars st + Str.len page_text))
  end.

Definition _prepare_content_for_extraction (pages_data : list Page) : string :=
  Str.join (formatted_pages (pack_loop pages_data (mkPackState [] 0))).

(** Vocabulary of the specification, defined from the functions above. *)

(** The characters a frame adds around the content of a page. *)
Definition framing_overhead (page : Page) : Z :=
  Str.len (page_text page) - Str.len (truncate_content (page_content page)).

(** The combined framed size of a sequence of pages: the framed lengths of
    the pages that are not skipped, added up. *)
Fixpoint framed_size (pages : list Page) : Z :=
  match pages with
  | [] => 0
  | page :: rest =>
      (if skipped page then 0 else Str.len (page_text page)) + framed_size rest
  end.

(** The excerpts of all the pages of a sequence that are not skipped. *)
Fixpoint excerpts (pages : list Page) : list string :=
  match pages with
  | [] => []
  | page :: rest =>
      if skipped page then excerpts rest else page_text page :: excerpts rest
  end.

(** A page is blank when its content is empty or only whitespace. *)
Definition blank (page : Page) : Prop := Str.all_space (page_content page).

(** The invariant of the loop: the counter is the length of what has been
    emitted, and it never passes the budget. *)
Definition pack_inv (st : PackState) : Prop :=
  total_chars st = Str.len (Str.join (formatted_pages st))
  /\ total_chars st <= max_total_chars.

(** ** The response schema *)

(** Pydantic models are embedded twice: as records, which is what the code
    passes around, and as the list of declared fields (name, annotation,
    default), which is what the class statement says and what the
    generation service receives as [response_schema].  [model_dump] relates
    the two. *)

#[warnings="-register-all"]
Inductive annotation :=
| Tstr
| Tbool
| Tlist (elem : annotation)
| Tmodel (fields : list (string * annotation)).

#[warnings="-register-all"]
Inductive value :=
| Vstr (s : string)
| Vbool (b : bool)
| Vlist (items : list value)
| Vmodel (fields : list (string * value)).

(** One line of a class body: [name: annotation = default]. *)
Record field := mkField {
  field_name : string;
  field_type : annotation;
  field_default : option value
}.

Definition annotations (fs : list field) : list (string * annotation) :=
  map (fun f => (field_name f, field_type f)) fs.

(** A value conforms to an annotation: a model value has exactly the
    declared fields, in order, each conforming. *)
Fixpoint has_type (a : annotation) (v : value) {struct v} : bool :=
  match a, v with
  | Tstr, Vstr _ => true
  | Tbool, Vbool _ => true
  | Tlist elem, Vlist items => forallb (has_type elem) items
  | Tmodel decl, Vmodel fields =>
      (fix go (decl : list (string * annotation)) (fields : list (string * value))
           {struct fields} : bool :=
         match decl, fields with
         | [], [] => true
         | (n, a') :: decl', (m, v') :: fields' =>
             String.eqb n m && has_type a' v' && go decl' fields'
         | _, _ => false
         end) decl fields
  | _, _ => false
  end.

(** The names of the fields annotated [str], with their defaults. *)
Definition is_str (a : annotation) : bool :=
  match a with
  | Tstr => true
  | _ => false
  end.

Definition string_fields (fs : list field) : list (string * option value) :=
  map (fun f => (field_name f, field_default f))
      (List.filter (fun f => is_str (field_type f)) fs).

Module Professional.

Record t := make {
  name : string;
  role : string;
  is_available : bool
}.

Definition model_fields : list field :=
  [ mkField "name" Tstr None;
    mkField "role" Tstr None;
    mkField "is_available" Tbool (Some (Vbool true)) ].

Definition model_dump (p : t) : value :=
  Vmodel [ ("name", Vstr (name p)); ("role", Vstr (role p));
           ("is_available", Vbool (is_available p)) ].

End Professional.

Module BusinessHours.

Record t := make {
  monday : string;
  tuesday : string;
  wednesday : string;
  thursday : string;
  friday : string;
  saturday : string;
  sunday : string
}.

Definition model_fields : list field :=
  [ mkField "monday" Tstr (Some (Vstr ""));
    mkField "tuesday" Tstr (Some (Vstr ""));
    mkField "wednesday" Tstr (Some (Vstr ""));
    mkField "thursday" Tstr (Some (Vstr ""));
    mkField "friday" Tstr (Some (Vstr ""));
    mkField "saturday" Tstr (Some (Vstr ""));
    mkField "sunday" Tstr (Some (Vstr "")) ].

(** [BusinessHours()] *)
Definition default : t := make "" "" "" "" "" "" "".

Definition model_dump (h : t) : value :=
  Vmodel [ ("monday", Vstr (monday h)); ("tuesday", Vstr (tuesday h));
           ("wednesday", Vstr (wednesday h)); ("thursday", Vstr (thursday h));
           ("friday", Vstr (friday h)); ("saturday", Vstr (saturday h));
           ("sunday", Vstr (sunday h)) ].

End BusinessHours.

Module BusinessData.

Record t := make {
  name : string;
  phoneNumber : string;
  address : string;
  city : string;
  state : string;
  pincode : string;
  website : string;
  email : string;
  businessHours : BusinessHours.t;
  is_24_7 : bool;
  holidayClosures : string;
  professionals : list Professional.t;
  manager : string;
  operationsLead : string;
  servicesOffered : list string;
  servicesNotOffered : string;
  specialties : list string
}.

Definition model_fields : list field :=
  [ mkField "name" Tstr (Some (Vstr ""));
    mkField "phoneNumber" Tstr (Some (Vstr ""));
    mkField "address" Tstr (Some (Vstr ""));
    mkField "city" Tstr (Some (Vstr ""));
    mkField "state" Tstr (Some (Vstr ""));
    mkField "pincode" Tstr (Some (Vstr ""));
    mkField "website" Tstr (Some (Vstr ""));
    mkField "email" Tstr (Some (Vstr ""));
    mkField "businessHours" (Tmodel (annotations BusinessHours.model_fields))
            (Some (BusinessHours.model_dump BusinessHours.default));
    mkField "is_24_7" Tbool (Some (Vbool false));
    mkField "holidayClosures" Tstr (Some (Vstr ""));
    mkField "professionals" (Tlist (Tmodel (annotations Professional.model_fields)))
            (Some (Vlist []));
    mkField "manager" Tstr (Some (Vstr ""));
    mkField "operationsLead" Tstr (Some (Vstr ""));
    mkField "servicesOffered" (Tlist Tstr) (Some (Vlist []));
    mkField "servicesNotOffered" Tstr (Some (Vstr ""));
    mkField "specialties" (Tlist Tstr) (Some (Vlist [])) ].

(** [BusinessData()]: every field at its declared default. *)
Definition default : t :=
  make "" "" "" "" "" "" "" "" BusinessHours.default false "" [] "" "" [] "" [].

Definition model_dump (d : t) : value :=
  Vmodel [ ("name", Vstr (name d));
           ("phoneNumber", Vstr (phoneNumber d));
           ("address", Vstr (address d));
           ("city", Vstr (city d));
           ("state", Vstr (state d));
           ("pincode", Vstr (pincode d));
           ("website", Vstr (website d));
           ("email", Vstr (email d));
           ("businessHours", BusinessHours.model_dump (businessHours d));
           ("is_24_7", Vbool (is_24_7 d));
           ("holidayClosures", Vstr (holidayClosures d));
           ("professionals", Vlist (map Professional.model_dump (professionals d)));
           ("manager", Vstr (manager d));
           ("operationsLead", Vstr (operationsLead d));
           ("servicesOffered", Vlist (map Vstr (servicesOffered d)));
           ("servicesNotOffered", Vstr (servicesNotOffered d));
           ("specialties", Vlist (map Vstr (specialties d))) ].

(** Every field present and correctly typed. *)
Definition well_formed (d : t) : Prop :=
  has_type (Tmodel (annotations model_fields)) (model_dump d) = true.

End BusinessData.

(** ** Effects of the orchestrator *)

(** A raised [Exception] (what [except Exception] catches): its class and
    the message [str(e)] gives.  Cancellation of the task and interpreter
    exit are not [Exception]s and are not part of this model. *)
Record exn := mkExn {
  exc_class : string;
  exc_message : string
}.

Definition ValueError (msg : string) : exn := mkExn "ValueError" msg.

(** A record handed to the logger. *)
Record LogRecord := mkLogRecord {
  levelname : string;
  message : string;
  exc_info : option exn
}.

(** [genai.Client(api_key=...)] *)
Record Client := mkClient {
  api_key : string
}.

(** [types.GenerateContentConfig(...)], the thinking budget flattened in. *)
Record GenerateContentConfig := mkConfig {
  temperature : Z;
  response_mime_type : string;
  response_schema : list field;
  thinking_budget : Z
}.

(** The arguments of one call of [generate_content]. *)
Record Request := mkRequest {
  model : string;
  contents : string;
  config : GenerateContentConfig
}.

(** The response of the service.  Its attribute [parsed] is the record the
    client library built from the reply, or [None] when the reply did not
    validate against the schema; line 117 reads it without a check. *)
Record Response := mkResponse {
  parsed : option BusinessData.t
}.

(** What a run can observe and change: the log and the requests sent. *)
Record World := mkWorld {
  log : list LogRecord;
  requests : list Request
}.

Inductive outcome (A : Type) :=
| Returned (a : A)
| Raised (e : exn).
Arguments Returned {A} a.
Arguments Raised {A} e.

(** Computations that read and change the world and may raise. *)
Definition M (A : Type) : Type := World -> outcome A * World.

Definition ret {A} (a : A) : M A := fun w => (Returned a, w).

Definition bind {A B} (m : M A) (k : A -> M B) : M B :=
  fun w =>
    match m w with
    | (Returned a, w') => k a w'
    | (Raised e, w') => (Raised e, w')
    end.

Definition raise {A} (e : exn) : M A := fun w => (Raised e, w).

(** [try: body  except Exception as e: handler(e)] *)
Definition try_except {A} (body : M A) (handler : exn -> M A) : M A :=
  fun w =>
    match body w with
    | (Returned a, w') => (Returned a, w')
    | (Raised e, w') => handler e w'
    end.

Notation "'let!' x ':=' m 'in' k" := (bind m (fun x => k))
  (at level 10, x name, m at level 100, k at level 200).
Notation "'do!' m 'in' k" := (bind m (fun _ => k))
  (at level 10, m at level 100, k at level 200).

(** Modelled from the spec: the logger of [helpers.loggerHelper], which is
    not among the sources.  [logger.error(msg, exc_info=True)] inside a
    handler of [e] records the message and the exception being handled
    (the failure is logged with its error message and stack context). *)
Definition logger_error (msg : string) (e : exn) : M unit :=
  fun w => (Returned tt, mkWorld (log w ++ [mkLogRecord "ERROR" msg (Some e)]) (requests w)).

Definition GEMINI_MODEL : string := "gemini-2.5-flash".

(** Truth value of [settings.gemini_api_key]: unset and empty are falsy. *)
Definition key_truthy (k : option string) : bool :=
  match k with
  | None => false
  | Some s => Str.truthy s
  end.

Section Orchestrator.

(** The setting [settings.gemini_api_key]; [helpers.envHelper] is not among
    the sources, so the value is a parameter: unset, or a string. *)
Variable gemini_api_key : option string.

(** The generation service behind [client.aio.models.generate_content]:
    for a client and a request it answers or raises. *)
Variable generate_content : Client -> Request -> outcome Response.

(** The instruction text of lines 174-309, a string constant; what follows
    holds for every text. *)
Variable extraction_prompt : string.

Definition get_gemini_client : M Client :=
  let api_key := gemini_api_key in
  if negb (key_truthy api_key)
  then raise (ValueError
         "Gemini API key is required. Set GEMINI_API_KEY environment variable.")
  else ret (mkClient (default "" api_key)).

Definition _build_extraction_prompt : string := extraction_prompt.

(** The awaited call: the request is sent, the service answers or raises. *)
Definition await_generate_content (client : Client) (req : Request) : M Response :=
  fun w => (generate_content client req, mkWorld (log w) (requests w ++ [req])).

(** The request of lines 103-114 for a packed context. *)
Definition extraction_request (prompt combined_content : string) : Request :=
  mkRequest GEMINI_MODEL
            (prompt +:+ LF +:+ LF +:+ combined_content)
            (mkConfig 0 "application/json" BusinessData.model_fields 0).

Definition extract_business_data
    (pages_data : list Page) (client : option Client)
    : M (option BusinessData.t) :=
  let! client := match client with
                  | None => get_gemini_client
                  | Some c => ret c
                  end in
  let combined_content := _prepare_content_for_extraction pages_data in
  let prompt := _build_extraction_prompt in
  try_except
    (let! response := await_generate_content client
                        (extraction_request prompt combined_content) in
     let extracted_data := parsed response in
     ret extracted_data)
    (fun e =>
       do! logger_error ("Error calling Gemini API: " +:+ exc_message e) e in
       ret (Some BusinessData.default)).

End Orchestrator.

(** ** Concrete inputs used by the examples below *)

(** A page whose URL alone is as long as the whole budget. *)
Definition long_url_page : Page :=
  {[ "url" := Str.repeat_char 500000 "a"; "content" := "x" ]}.

(** A page one character over the per-page cap. *)
Definition long_page : Page :=
  {[ "url" := "a.com"; "content" := Str.repeat_char 50001 "a" ]}.

Definition small_page : Page :=
  {[ "url" := "a.com"; "content" := "Open 9-5 Mon-Fri, call (555) 111-2222" ]}.

Definition blank_page : Page :=
  {[ "url" := "b.com"; "content" := "   " ]}.

Definition no_url_page : Page := {[ "content" := "x" ]}.

Definition no_content_page : Page := {[ "url" := "c.com" ]}.

(** A service that answers every request with the same record, and one
    that fails every request. *)
Definition answering_service (d : BusinessData.t) : Client -> Request -> outcome Response :=
  fun _ _ => Returned (mkResponse (Some d)).

(** A service whose reply could not be parsed into a record. *)
Definition unparsed_service : Client -> Request -> outcome Response :=
  fun _ _ => Returned (mkResponse None).

Definition failing_service (e : exn) : Client -> Request -> outcome Response :=
  fun _ _ => Raised e.

Definition empty_world : World := mkWorld [] [].

(** The error [get_gemini_client] raises when the credential is missing. *)
Definition config_error : exn :=
  ValueError "Gemini API key is required. Set GEMINI_API_KEY environment variable.".

(** ** The instruction text and further vocabulary *)

(** The double quote character, as a string. *)
Definition DQ : string := String "034"%char EmptyString.

(** The lines of the string literal that [_build_extraction_prompt] returns
    (lines 174-309 of the source), in order. *)
Definition extraction_prompt_lines : list string :=
  [ "You are a data extraction specialist. Extract structured information about a business from the provided website content.";
    EmptyString;
    "Extract all available information about the business. The data will be validated against a strict schema and sent directly to a frontend form.";
    EmptyString;
    "IMPORTANT: Return data in this exact structure - it will populate a form with ZERO transformation.";
    EmptyString;
    "INSTRUCTIONS:";
    "1. name: Extract the full business name (string)";
    "   - If none found, return empty string " +:+ DQ +:+ DQ;
    EmptyString;
    "2. phoneNumbers: Extract ALL phone numbers as a comma-separated string";
    "   - Format: " +:+ DQ +:+ "(555) 123-4567, (555) 123-4568" +:+ DQ +:+ " or " +:+ DQ +:+ "(555) 123-4567" +:+ DQ;
    "   - If multiple numbers, separate with comma and space";
    "   - If none found, return empty string " +:+ DQ +:+ DQ;
    EmptyString;
    "3. address: Extract the primary street address only (string)";
    "   - Format: " +:+ DQ +:+ "123 Oak Street" +:+ DQ +:+ " (street number and name only)";
    "   - If none found, return empty string " +:+ DQ +:+ DQ;
    EmptyString;
    "4. city: Extract the city name (string)";
    "   - If none found, return empty string " +:+ DQ +:+ DQ;
    EmptyString;
    "5. state: Extract the state name or abbreviation (string)";
    "   - If none found, return empty string " +:+ DQ +:+ DQ;
    EmptyString;
    "6. pincode: Extract the ZIP/postal code (string)";
    "   - If none found, return empty string " +:+ DQ +:+ DQ;
    EmptyString;
    "7. website: Extract the business's website URL (string)";
    "   - If none found, return empty string " +:+ DQ +:+ DQ;
    EmptyString;
    "8. email: Extract the primary email address (string)";
    "   - If none found, return empty string " +:+ DQ +:+ DQ;
    EmptyString;
    "9. businessHours: Extract business hours as a simple object with day keys";
    "   - Format: Simple strings like " +:+ DQ +:+ "8:00 AM - 6:00 PM" +:+ DQ +:+ ", " +:+ DQ +:+ "Closed" +:+ DQ +:+ ", or " +:+ DQ +:+ "24/7" +:+ DQ;
    "   - Structure:";
    "     {";
    "       " +:+ DQ +:+ "monday" +:+ DQ +:+ ": " +:+ DQ +:+ "8:00 AM - 6:00 PM" +:+ DQ +:+ ",";
    "       " +:+ DQ +:+ "tuesday" +:+ DQ +:+ ": " +:+ DQ +:+ "8:00 AM - 6:00 PM" +:+ DQ +:+ ",";
    "       " +:+ DQ +:+ "wednesday" +:+ DQ +:+ ": " +:+ DQ +:+ "8:00 AM - 6:00 PM" +:+ DQ +:+ ",";
    "       " +:+ DQ +:+ "thursday" +:+ DQ +:+ ": " +:+ DQ +:+ "8:00 AM - 6:00 PM" +:+ DQ +:+ ",";
    "       " +:+ DQ +:+ "friday" +:+ DQ +:+ ": " +:+ DQ +:+ "8:00 AM - 6:00 PM" +:+ DQ +:+ ",";
    "       " +:+ DQ +:+ "saturday" +:+ DQ +:+ ": " +:+ DQ +:+ "9:00 AM - 2:00 PM" +:+ DQ +:+ ",";
    "       " +:+ DQ +:+ "sunday" +:+ DQ +:+ ": " +:+ DQ +:+ "Closed" +:+ DQ;
    "     }";
    "   - If hours not found for a day, use empty string " +:+ DQ +:+ DQ;
    "   - If business is 24/7, still populate hours (frontend will handle is_24_7 flag)";
    EmptyString;
    "10. is_24_7: Set to true if business operates 24/7, otherwise false (boolean)";
    "    - Default: false";
    EmptyString;
    "11. holidayClosures: Extract information about holiday closures (string)";
    "    - Format: " +:+ DQ +:+ "Closed for Thanksgiving. Limited hours on Christmas Eve." +:+ DQ;
    "    - If none found, return empty string " +:+ DQ +:+ DQ;
    EmptyString;
    "12. professionals: Extract key team members or professionals as an array of objects";
    "    - Structure: {" +:+ DQ +:+ "name" +:+ DQ +:+ ": " +:+ DQ +:+ "Full Name" +:+ DQ +:+ ", " +:+ DQ +:+ "role" +:+ DQ +:+ ": " +:+ DQ +:+ "Title/Role" +:+ DQ +:+ ", " +:+ DQ +:+ "is_available" +:+ DQ +:+ ": true/false}";
    "    - is_available defaults to true if not specified";
    "    - If none found, return empty array []";
    EmptyString;
    "13. manager: Extract the manager or business owner's name (string)";
    "    - If none found, return empty string " +:+ DQ +:+ DQ;
    EmptyString;
    "14. operationsLead: Extract the operations lead or technical head's name (string)";
    "    - If none found, return empty string " +:+ DQ +:+ DQ;
    EmptyString;
    "15. servicesOffered: Extract ALL services offered as an array of strings";
    "      - IMPORTANT: Map extracted services to the following STANDARD LIST if possible.";
    "    - If a service on the website matches a standard service (even if named slightly differently), use the STANDARD NAME.";
    "    - If it does not match any, use the name found on the website.";
    "    - STANDARD SERVICE LIST:";
    "      [";
    "        " +:+ DQ +:+ "Wellness & Preventive Exams" +:+ DQ +:+ ",";
    "        " +:+ DQ +:+ "Puppy & Kitten Care Programs" +:+ DQ +:+ ",";
    "        " +:+ DQ +:+ "Vaccinations & Titers" +:+ DQ +:+ ",";
    "        " +:+ DQ +:+ "Flea, Tick & Heartworm Prevention" +:+ DQ +:+ ",";
    "        " +:+ DQ +:+ "Microchipping" +:+ DQ +:+ ",";
    "        " +:+ DQ +:+ "Senior Pet Wellness" +:+ DQ +:+ ",";
    "        " +:+ DQ +:+ "Nutrition & Diet Counseling" +:+ DQ +:+ ",";
    "        " +:+ DQ +:+ "Sick Pet Examinations" +:+ DQ +:+ ",";
    "        " +:+ DQ +:+ "Pain Management" +:+ DQ +:+ ",";
    "        " +:+ DQ +:+ "Internal Medicine Consults" +:+ DQ +:+ ",";
    "        " +:+ DQ +:+ "Anal Gland Expression" +:+ DQ +:+ ",";
    "        " +:+ DQ +:+ "In-House Laboratory" +:+ DQ +:+ ",";
    "        " +:+ DQ +:+ "Radiology (X-rays)" +:+ DQ +:+ ",";
    "        " +:+ DQ +:+ "Ultrasound" +:+ DQ +:+ ",";
    "        " +:+ DQ +:+ "Allergy Testing" +:+ DQ +:+ ",";
    "        " +:+ DQ +:+ "Cytology (Ear, Skin)" +:+ DQ +:+ ",";
    "        " +:+ DQ +:+ "Urinalysis/Fecal Exam" +:+ DQ +:+ ",";
    "        " +:+ DQ +:+ "Cardiac & Respiratory Diagnostics" +:+ DQ +:+ ",";
    "        " +:+ DQ +:+ "Spay/Neuter Surgery" +:+ DQ +:+ ",";
    "        " +:+ DQ +:+ "Soft Tissue Surgery" +:+ DQ +:+ ",";
    "        " +:+ DQ +:+ "Orthopedic Surgery" +:+ DQ +:+ ",";
    "        " +:+ DQ +:+ "Dental Cleaning & Extractions" +:+ DQ +:+ ",";
    "        " +:+ DQ +:+ "Dermatology" +:+ DQ +:+ ",";
    "        " +:+ DQ +:+ "Ophthalmology" +:+ DQ +:+ ",";
    "        " +:+ DQ +:+ "Oncology" +:+ DQ +:+ ",";
    "        " +:+ DQ +:+ "Behavioral Counseling" +:+ DQ +:+ ",";
    "        " +:+ DQ +:+ "Urgent Care Appointments" +:+ DQ +:+ ",";
    "        " +:+ DQ +:+ "Emergency Stabilization" +:+ DQ +:+ ",";
    "        " +:+ DQ +:+ "IV Fluid Therapy" +:+ DQ +:+ ",";
    "        " +:+ DQ +:+ "Post-Surgical Recovery Monitoring" +:+ DQ +:+ ",";
    "        " +:+ DQ +:+ "Isolation & Infectious Disease Care" +:+ DQ +:+ ",";
    "        " +:+ DQ +:+ "Quality of Life/Euthanasia Consult" +:+ DQ +:+ ",";
    "        " +:+ DQ +:+ "Hospice & Palliative Care" +:+ DQ +:+ ",";
    "        " +:+ DQ +:+ "Humane Euthanasia Services" +:+ DQ +:+ ",";
    "        " +:+ DQ +:+ "Laser Therapy" +:+ DQ +:+ ",";
    "        " +:+ DQ +:+ "Acupuncture" +:+ DQ +:+ ",";
    "        " +:+ DQ +:+ "Physical Therapy / Rehabilitation" +:+ DQ +:+ ",";
    "        " +:+ DQ +:+ "Homeopathy" +:+ DQ +:+ ",";
    "        " +:+ DQ +:+ "Medication Refill Pick-up" +:+ DQ +:+ ",";
    "        " +:+ DQ +:+ "Prescription Diet Pick-up" +:+ DQ;
    "      ]";
    "    - Format: [" +:+ DQ +:+ "Standard Name 1" +:+ DQ +:+ ", " +:+ DQ +:+ "Standard Name 2" +:+ DQ +:+ ", " +:+ DQ +:+ "Other Found Name" +:+ DQ +:+ "]";
    "    - If none found, return empty array []";
    EmptyString;
    "16. servicesNotOffered: Extract services explicitly NOT offered (string)";
    "    - Format: " +:+ DQ +:+ "Boarding, Grooming, Delivery" +:+ DQ;
    "    - Comma-separated if multiple";
    "    - If none found, return empty string " +:+ DQ +:+ DQ;
    EmptyString;
    "17. specialties: Extract business specialties, categories, or focus areas as an array of strings";
    "    - Format: [" +:+ DQ +:+ "Category 1" +:+ DQ +:+ ", " +:+ DQ +:+ "Category 2" +:+ DQ +:+ "]";
    "    - If none found, return empty array []";
    EmptyString;
    "EMPTY VALUES STRATEGY:";
    "- Arrays: Use empty array [] if no data found";
    "- Strings: Use empty string " +:+ DQ +:+ DQ +:+ " if no data found";
    "- Booleans: Use false as default (except for professionals.is_available which defaults to true)";
    "- businessHours object: Return full structure with empty strings for each day if no data found";
    EmptyString;
    "Only include information explicitly stated on the website.";
    "Be thorough and accurate.";
    EmptyString;
    "Website content:" ].

(** The literal itself: its lines separated by line feeds. *)
Definition extraction_prompt_text : string :=
  String.concat LF extraction_prompt_lines.

(** [sub in s] *)
Fixpoint str_contains (sub s : string) : bool :=
  String.prefix sub s
  || match s with
     | EmptyString => false
     | String _ s' => str_contains sub s'
     end.

(** [s.startswith(p)] and [s.endswith(p)], as propositions. *)
Definition starts_with (p s : string) : Prop := exists r, s = p +:+ r.
Definition ends_with (p s : string) : Prop := exists r, s = r +:+ p.

(** Two pages that [page.get] cannot tell apart on the two keys the packer
    reads. *)
Definition same_fields (p q : Page) : Prop :=
  page_url p = page_url q /\ page_content p = page_content q.

(** The client a call ends up using: the one passed in, or else the one
    built from the configured key. *)
Definition client_in_use (key : option string) (client : option Client) (c : Client) : Prop :=
  client = Some c
  \/ (client = None /\ key_truthy key = true /\ c = mkClient (default "" key)).

(** The heading the instruction text gives the [n]-th field. *)
Definition heading (n name : string) : string := LF +:+ n +:+ ". " +:+ name +:+ ":".

Definition numerals : list string :=
  [ "1"; "2"; "3"; "4"; "5"; "6"; "7"; "8"; "9"; "10"; "11"; "12"; "13"; "14";
    "15"; "16"; "17" ].

(** A page whose content is exactly as long as the per-page cap. *)
Definition cap_page : Page :=
  {[ "url" := "a.com"; "content" := Str.repeat_char 50000 "a" ]}.

(** A page with whitespace around its text and an extra key. *)
Definition padded_page : Page :=
  {[ "url" := "d.com"; "content" := "  hours: 9-5 " ; "title" := "Home" ]}.

(** ** Facts about strings *)

Section StrFacts.
Import Str.

Lemma append_cons c s t : String c s +:+ t = String c (s +:+ t).
Proof. reflexivity. Qed.

Lemma append_nil_l s : "" +:+ s = s.
Proof. reflexivity. Qed.

Lemma append_nil_r s : s +:+ "" = s.
Proof. induction s as [|c s IH]; [done|]. by rewrite append_cons, IH. Qed.

Lemma append_assoc s t u : (s +:+ t) +:+ u = s +:+ (t +:+ u).
Proof.
  induction s as [|c s IH]; [done|]. by rewrite !append_cons, IH.
Qed.

Lemma len_nil : len "" = 0.
Proof. reflexivity. Qed.

Lemma len_cons c s : len (String c s) = 1 + len s.
Proof. unfold len. cbn [String.length]. lia. Qed.

Lemma len_nonneg s : 0 <= len s.
Proof. unfold len. lia. Qed.

Lemma len_app s t : len (s +:+ t) = len s + len t.
Proof.
  induction s as [|c s IH]; [by rewrite append_nil_l, len_nil|].
  rewrite append_cons, !len_cons, IH. lia.
Qed.

Lemma len_zero_inv s : len s = 0 -> s = "".
Proof.
  destruct s as [|c s]; [done|]. rewrite len_cons. pose proof (len_nonneg s). lia.
Qed.

Lemma len_slice_to n s : 0 <= n -> len (slice_to n s) = Z.min n (len s).
Proof.
  revert n. induction s as [|c s IH]; intros n Hn; cbn [slice_to].
  - rewrite len_nil. lia.
  - destruct (Z.leb_spec n 0).
    + rewrite len_nil, len_cons. pose proof (len_nonneg s). lia.
    + rewrite !len_cons, IH by lia. lia.
Qed.

Lemma slice_to_from n s : slice_to n s +:+ slice_from n s = s.
Proof.
  revert n. induction s as [|c s IH]; intros n; cbn [slice_to slice_from]; [done|].
  destruct (n <=? 0); [done|]. by rewrite append_cons, IH.
Qed.

Lemma slice_to_prefix n s : prefix_of (slice_to n s) s.
Proof. exists (slice_from n s). by rewrite slice_to_from. Qed.

Lemma join_app l1 l2 : join (l1 ++ l2) = join l1 +:+ join l2.
Proof.
  induction l1 as [|s l1 IH]; [done|].
  cbn [join app]. change ((s :: l1) ++ l2) with (s :: (l1 ++ l2)).
  cbn [join]. by rewrite IH, append_assoc.
Qed.

Lemma join_singleton s : join [s] = s.
Proof. cbn [join]. apply append_nil_r. Qed.

Lemma repeat_char_succ n c :
  0 <= n -> repeat_char (n + 1) c = String c (repeat_char n c).
Proof.
  intros Hn. unfold repeat_char.
  replace (Z.to_nat (n + 1)) with (S (Z.to_nat n)) by lia.
apply Nat.iter_succ.
Qed.

Lemma len_iter_cons (k : nat) c s :
  len (Nat.iter k (String c) s) = Z.of_nat k + len s.
Proof.
  induction k as [|k IH]; [done|].
  rewrite Nat.iter_succ, len_cons, IH. lia.
Qed.

Lemma len_repeat_char n c : 0 <= n -> len (repeat_char n c) = n.
Proof.
  intros Hn. unfold repeat_char. rewrite len_iter_cons, len_nil. lia.
Qed.

(** The stripped string is empty exactly when every character is
    whitespace: this is what the test of line 148 decides. *)

Lemma rstrip_all_space s : all_space s -> rstrip s = "".
Proof.
  induction s as [|c s IH]; [done|]. intros [Hc Hs].
  cbn [rstrip]. rewrite (IH Hs), Hc. done.
Qed.

Lemma rstrip_empty_inv s : rstrip s = "" -> all_space s.
Proof.
  induction s as [|c s IH]; [done|]. cbn [rstrip all_space].
  destruct (rstrip s) eqn:Hr; [|done].
  destruct (isspace c) eqn:Hc; [|done]. auto.
Qed.

Lemma lstrip_all_space s : all_space s -> lstrip s = "".
Proof.
  induction s as [|c s IH]; [done|]. intros [Hc Hs].
  cbn [lstrip]. rewrite Hc. auto.
Qed.

Lemma lstrip_spec s :
  lstrip s = "" \/ exists c r, lstrip s = String c r /\ isspace c = false.
Proof.
  induction s as [|c s IH]; [by left|]. cbn [lstrip].
  destruct (isspace c) eqn:Hc; [done|]. right. eauto.
Qed.

Lemma lstrip_empty_inv s : lstrip s = "" -> all_space s.
Proof.
  induction s as [|c s IH]; [done|]. cbn [lstrip all_space].
  destruct (isspace c) eqn:Hc; [auto|done].
Qed.

Lemma strip_empty_iff s : strip s = "" <-> all_space s.
Proof.
  unfold strip. split.
  - intros H. apply lstrip_empty_inv.
    destruct (lstrip_spec s) as [E|(c & r & E & Hc)]; [done|].
    rewrite E in H. apply rstrip_empty_inv in H as [Hc' _]. congruence.
  - intros H. by rewrite (lstrip_all_space s H).
Qed.

Lemma truthy_false_iff s : truthy s = false <-> s = "".
Proof. by destruct s. Qed.

End StrFacts.

(** ** Facts about the packer *)

Section PackerFacts.
Import Str.

Lemma pack_loop_cons page rest st :
  pack_loop (page :: rest) st =
  if skipped page then pack_loop rest st
  else if total_chars st + len (page_text page) >? max_total_chars then st
  else pack_loop rest
         (mkPackState (formatted_pages st ++ [page_text page])
                      (total_chars st + len (page_text page))).
Proof. reflexivity. Qed.

Lemma skipped_iff page : skipped page = true <-> blank page.
Proof.
  unfold skipped, blank. rewrite negb_true_iff, truthy_false_iff.
  apply strip_empty_iff.
Qed.

Lemma skipped_false_iff page : skipped page = false <-> ~ blank page.
Proof.
  rewrite <- skipped_iff. destruct (skipped page); split; congruence.
Qed.

Lemma not_blank_first_char page c s :
  page_content page = String c s -> isspace c = false -> ~ blank page.
Proof.
  unfold blank. intros -> Hc [Hc' _]. congruence.
Qed.

Lemma len_frame url content :
  len (frame url content) = 17 + len url + len content.
Proof.
  unfold frame. rewrite !len_app.
  change (len "--- PAGE: ") with 10. change (len " ---") with 4.
  change (len LF) with 1. lia.
Qed.

Lemma len_truncate_content content :
  len (truncate_content content) =
  if len content >? max_chars_per_page then max_chars_per_page + 23 else len content.
Proof.
  unfold truncate_content. destruct (Z.gtb_spec (len content) max_chars_per_page); [|done].
  rewrite len_app, len_slice_to by done.
  change (len truncation_marker) with 23. lia.
Qed.

Lemma len_truncate_content_le content :
  0 <= len (truncate_content content) <= max_chars_per_page + 23.
Proof.
  rewrite len_truncate_content. pose proof (len_nonneg content).
  destruct (Z.gtb_spec (len content) max_chars_per_page); unfold max_chars_per_page in *; lia.
Qed.

Lemma len_page_text page :
  len (page_text page) =
  17 + len (page_url page) + len (truncate_content (page_content page)).
Proof. apply len_frame. Qed.

Lemma framing_overhead_eq page : framing_overhead page = 17 + len (page_url page).
Proof. unfold framing_overhead. rewrite len_page_text. lia. Qed.

Lemma framed_size_nonneg pages : 0 <= framed_size pages.
Proof.
  induction pages as [|p pages IH]; cbn [framed_size]; [done|].
  pose proof (len_nonneg (page_text p)). destruct (skipped p); lia.
Qed.

Lemma framed_size_app pre post :
  framed_size (pre ++ post) = framed_size pre + framed_size post.
Proof.
  induction pre as [|p pre IH]; [done|].
  change ((p :: pre) ++ post) with (p :: (pre ++ post)).
  cbn [framed_size]. rewrite IH. lia.
Qed.

Lemma len_join_excerpts pages : len (join (excerpts pages)) = framed_size pages.
Proof.
  induction pages as [|p pages IH]; [done|]. cbn [excerpts framed_size].
  destruct (skipped p); [lia|]. cbn [join]. rewrite len_app, IH. done.
Qed.

Lemma excerpts_blank pages : Forall blank pages -> excerpts pages = [].
Proof.
  induction 1 as [|p pages Hp _ IH]; [done|]. cbn [excerpts].
  apply skipped_iff in Hp. by rewrite Hp.
Qed.

Lemma framed_size_blank pages : Forall blank pages -> framed_size pages = 0.
Proof.
  intros H. rewrite <- len_join_excerpts, (excerpts_blank _ H). done.
Qed.

(** As long as the budget holds, the loop emits every excerpt of the pages
    it visits. *)
Lemma pack_loop_fits pre post st :
  total_chars st + framed_size pre <= max_total_chars ->
  pack_loop (pre ++ post) st =
  pack_loop post (mkPackState (formatted_pages st ++ excerpts pre)
                              (total_chars st + framed_size pre)).
Proof.
  revert st. induction pre as [|p pre IH]; intros [fp tc]; cbn [total_chars formatted_pages].
  - intros _. cbn [framed_size excerpts]. by rewrite app_nil_r, Z.add_0_r.
  - change ((p :: pre) ++ post) with (p :: (pre ++ post)).
    rewrite pack_loop_cons. cbn [framed_size excerpts total_chars formatted_pages].
    pose proof (framed_size_nonneg pre). pose proof (len_nonneg (page_text p)).
    destruct (skipped p); intros Hfit.
    + rewrite IH by (cbn; lia). cbn [total_chars formatted_pages].
      f_equal; f_equal; lia.
    + destruct (Z.gtb_spec (tc + len (page_text p)) max_total_chars); [lia|].
      rewrite IH by (cbn; lia). cbn [total_chars formatted_pages].
      rewrite <- app_assoc. cbn [app]. f_equal; f_equal; lia.
Qed.

(** The first page that fails the budget check ends the loop. *)
Lemma pack_loop_break page rest st :
  skipped page = false ->
  total_chars st + len (page_text page) > max_total_chars ->
  pack_loop (page :: rest) st = st.
Proof.
  intros Hs Hover. rewrite pack_loop_cons, Hs.
  destruct (Z.gtb_spec (total_chars st + len (page_text page)) max_total_chars); [done|lia].
Qed.

Lemma pack_loop_skip page rest st :
  skipped page = true -> pack_loop (page :: rest) st = pack_loop rest st.
Proof. intros Hs. by rewrite pack_loop_cons, Hs. Qed.

Lemma pack_loop_accept page rest st :
  skipped page = false ->
  total_chars st + len (page_text page) <= max_total_chars ->
  pack_loop (page :: rest) st =
  pack_loop rest (mkPackState (formatted_pages st ++ [page_text page])
                              (total_chars st + len (page_text page))).
Proof.
  intros Hs Hfit. rewrite pack_loop_cons, Hs.
  destruct (Z.gtb_spec (total_chars st + len (page_text page)) max_total_chars); [lia|done].
Qed.

Lemma pack_loop_inv pages st : pack_inv st -> pack_inv (pack_loop pages st).
Proof.
  revert st. induction pages as [|p pages IH]; intros st Hinv; [done|].
  rewrite pack_loop_cons. destruct (skipped p); [by apply IH|].
  destruct (Z.gtb_spec (total_chars st + len (page_text p)) max_total_chars); [done|].
  apply IH. destruct Hinv as [Hlen Hle]. split; cbn [total_chars formatted_pages]; [|done].
  rewrite join_app, len_app, join_singleton. lia.
Qed.

(** What has been emitted is never taken back. *)
Lemma pack_loop_extends pages st :
  exists more, formatted_pages (pack_loop pages st) = formatted_pages st ++ more.
Proof.
  revert st. induction pages as [|p pages IH]; intros st.
  - exists []. by rewrite app_nil_r.
  - rewrite pack_loop_cons. destruct (skipped p); [apply IH|].
    destruct (total_chars st + len (page_text p) >? max_total_chars).
    + exists []. by rewrite app_nil_r.
    + destruct (IH (mkPackState (formatted_pages st ++ [page_text p])
                                (total_chars st + len (page_text p)))) as [more Hm].
      exists (page_text p :: more). rewrite Hm. cbn [formatted_pages].
      by rewrite <- app_assoc.
Qed.

Lemma pack_inv_init : pack_inv (mkPackState [] 0).
Proof. split; [done|]. unfold max_total_chars; cbn; lia. Qed.

(** A sequence over the budget has a first page that fails the check. *)
Lemma first_over_budget pages t :
  t <= max_total_chars -> t + framed_size pages > max_total_chars ->
  exists pre p post,
    pages = pre ++ p :: post /\ skipped p = false
    /\ t + framed_size pre <= max_total_chars
    /\ t + framed_size pre + len (page_text p) > max_total_chars.
Proof.
  revert t. induction pages as [|q pages IH]; intros t Ht Hover.
  - cbn [framed_size] in Hover. lia.
  - cbn [framed_size] in Hover. destruct (skipped q) eqn:Hq.
    + destruct (IH t Ht) as (pre & p & post & -> & Hp & Hfit & Hbrk); [lia|].
      exists (q :: pre), p, post. cbn [framed_size]. rewrite Hq.
      repeat split; [done|lia|lia].
    + destruct (Z.gtb_spec (t + len (page_text q)) max_total_chars) as [Hgt|Hle].
      * exists [], q, pages. cbn [framed_size]. repeat split; [done|lia|lia].
      * destruct (IH (t + len (page_text q)) Hle) as (pre & p & post & -> & Hp & Hfit & Hbrk); [lia|].
        exists (q :: pre), p, post. cbn [framed_size]. rewrite Hq.
        repeat split; [done|lia|lia].
Qed.

End PackerFacts.

Section PackerMore.
Import Str.

Lemma lookup_page_url u c :
  page_url {[ "url" := u; "content" := c ]} = u.
Proof. unfold page_url. by rewrite lookup_insert_eq. Qed.

Lemma lookup_page_content u c :
  page_content {[ "url" := u; "content" := c ]} = c.
Proof.
  unfold page_content. rewrite lookup_insert_ne by done.
  by rewrite lookup_singleton_eq.
Qed.

Lemma len_page_text_le page :
  len (page_text page) <= 17 + len (page_url page) + (max_chars_per_page + 23).
Proof.
  rewrite len_page_text. pose proof (len_truncate_content_le (page_content page)). lia.
Qed.

(** A URL of at most 449,960 characters always leaves room for the page. *)
Lemma page_text_fits_of_url page :
  len (page_url page) <= 449960 -> len (page_text page) <= max_total_chars.
Proof.
  intros Hu. pose proof (len_page_text_le page).
  unfold max_total_chars, max_chars_per_page in *. lia.
Qed.

Lemma pack_eq pages :
  _prepare_content_for_extraction pages =
  join (formatted_pages (pack_loop pages (mkPackState [] 0))).
Proof. reflexivity. Qed.

(** A page that is not skipped and passes the budget check is emitted
    right after the excerpts of the pages before it. *)
Lemma pack_accepts pre p post :
  skipped p = false ->
  framed_size pre + len (page_text p) <= max_total_chars ->
  exists rest,
    _prepare_content_for_extraction (pre ++ p :: post)
    = join (excerpts pre) +:+ page_text p +:+ rest.
Proof.
  intros Hs Hfit. pose proof (len_nonneg (page_text p)).
  rewrite pack_eq, pack_loop_fits by (cbn [total_chars]; lia).
  cbn [formatted_pages total_chars app].
  rewrite pack_loop_accept by (cbn [total_chars]; done || lia).
  cbn [formatted_pages total_chars].
  destruct (pack_loop_extends post
              (mkPackState (excerpts pre ++ [page_text p])
                           (0 + framed_size pre + len (page_text p)))) as [more ->].
  cbn [formatted_pages]. exists (join more).
  by rewrite !join_app, join_singleton, append_assoc.
Qed.

(** The output when the loop stops at [p]. *)
Lemma pack_cutoff pre p post :
  skipped p = false ->
  framed_size pre <= max_total_chars ->
  framed_size pre + len (page_text p) > max_total_chars ->
  _prepare_content_for_extraction (pre ++ p :: post) = join (excerpts pre).
Proof.
  intros Hs Hfit Hover.
  rewrite pack_eq, pack_loop_fits by (cbn [total_chars]; lia).
  rewrite pack_loop_break by (cbn [total_chars]; done || lia).
  done.
Qed.

(** A skipped page can be removed from the input without changing the
    state the loop ends in. *)
Lemma pack_loop_remove_skipped pre p post st :
  skipped p = true ->
  pack_loop (pre ++ p :: post) st = pack_loop (pre ++ post) st.
Proof.
  intros Hs. revert st. induction pre as [|q pre IH]; intros st.
  - by apply pack_loop_skip.
  - change ((q :: pre) ++ p :: post) with (q :: (pre ++ p :: post)).
    change ((q :: pre) ++ post) with (q :: (pre ++ post)).
    rewrite !pack_loop_cons. destruct (skipped q); [apply IH|].
    destruct (total_chars st + len (page_text q) >? max_total_chars); [done|apply IH].
Qed.

Lemma pack_all_blank pages :
  Forall blank pages -> _prepare_content_for_extraction pages = "".
Proof.
  intros Hb. rewrite <- (app_nil_r pages), pack_eq.
  rewrite pack_loop_fits
    by (cbn [total_chars]; rewrite framed_size_blank by done; unfold max_total_chars; lia).
  by rewrite (excerpts_blank _ Hb).
Qed.

Lemma pack_within_budget pages :
  len (_prepare_content_for_extraction pages) <= max_total_chars.
Proof.
  destruct (pack_loop_inv pages _ pack_inv_init) as [Hlen Hle].
  rewrite pack_eq, <- Hlen. done.
Qed.

Lemma page_text_nonempty page : page_text page <> "".
Proof.
  intros H. pose proof (len_page_text page) as Hl. rewrite H, len_nil in Hl.
  pose proof (len_nonneg (page_url page)).
  pose proof (len_nonneg (truncate_content (page_content page))). lia.
Qed.

End PackerMore.

(** ** Small runs of the packer *)

Example pack_three_pages :
  _prepare_content_for_extraction
    [ {[ "url" := "a.com"; "content" := "Open 9-5" ]}; blank_page; no_url_page ]
  = "--- PAGE: a.com ---" +:+ LF +:+ "Open 9-5" +:+ LF +:+ LF +:+
    "--- PAGE: Unknown URL ---" +:+ LF +:+ "x" +:+ LF +:+ LF.
Proof. vm_compute. reflexivity. Qed.

Example pack_empty : _prepare_content_for_extraction [] = "".
Proof. reflexivity. Qed.

Example strip_example :
  Str.strip (" " +:+ LF +:+ "a b " +:+ LF) = "a b".
Proof. reflexivity. Qed.

Example slice_example : Str.slice_to 3 "abcdef" = "abc" /\ Str.slice_to 9 "abc" = "abc".
Proof. split; reflexivity. Qed.

Example truncation_marker_length : Str.len truncation_marker = 23.
Proof. reflexivity. Qed.

(** ** Properties of the content packer *)

Section PackerClaims.
Import Str.

(** Facts about the concrete pages. *)

Lemma long_url_page_over_budget :
  skipped long_url_page = false
  /\ len (page_text long_url_page) > max_total_chars.
Proof.
  split.
  - apply skipped_false_iff.
    apply (not_blank_first_char _ "x"%char ""); [apply lookup_page_content|done].
  - rewrite len_page_text. unfold long_url_page.
    rewrite lookup_page_url, len_repeat_char by lia.
    pose proof (len_truncate_content_le (page_content
      {[ "url" := repeat_char 500000 "a"; "content" := "x" ]})).
    unfold max_total_chars. lia.
Qed.

Lemma long_page_facts :
  skipped long_page = false
  /\ len (page_content long_page) = 50001
  /\ len (page_text long_page) = 50045.
Proof.
  unfold long_page. split; [|split].
  - apply skipped_false_iff.
    apply (not_blank_first_char _ "a"%char (repeat_char 50000 "a")); [|done].
    rewrite lookup_page_content. by rewrite <- repeat_char_succ.
  - rewrite lookup_page_content. by rewrite len_repeat_char.
  - rewrite len_page_text, len_truncate_content, lookup_page_url, lookup_page_content.
    rewrite len_repeat_char by lia. done.
Qed.

(** C4, as stated, fails: a first qualifying page whose URL is as long as
    the budget is rejected by the budget check, and the output is empty. *)
Lemma C4_long_url_page_dropped :
  ~ blank long_url_page
  /\ _prepare_content_for_extraction [long_url_page] = ""
  /\ ~ (exists rest,
          _prepare_content_for_extraction [long_url_page]
          = page_text long_url_page +:+ rest).
Proof.
  destruct long_url_page_over_budget as [Hs Hover].
  assert (Hout : _prepare_content_for_extraction [long_url_page] = "").
  { rewrite pack_eq, pack_loop_break; [done|done|]. cbn [total_chars]. lia. }
  split; [by apply skipped_false_iff|]. split; [done|].
  intros [rest Hrest]. rewrite Hout in Hrest.
  destruct (page_text long_url_page) eqn:E; [|done].
  by apply page_text_nonempty in E.
Qed.

(** C4, amended: the first page whose content is not blank is included in
    the packed output whenever its framed excerpt (header with the URL,
    content cut at the per-page cap, trailing newlines) is at most 500,000
    characters long; every URL of at most 449,960 characters makes it so.
    The output then starts with that excerpt. *)
Theorem C4_first_page_included (pre post : list Page) (p : Page) :
  Forall blank pre -> ~ blank p ->
  len (page_text p) <= max_total_chars ->
  (exists rest, _prepare_content_for_extraction (pre ++ p :: post)
                = page_text p +:+ rest)
  /\ page_text p = frame (page_url p) (truncate_content (page_content p))
  /\ (forall q : Page, len (page_url q) <= 449960 ->
                       len (page_text q) <= max_total_chars).
Proof.
  intros Hpre Hp Hfit. split; [|split; [done|apply page_text_fits_of_url]].
  apply skipped_false_iff in Hp.
  destruct (pack_accepts pre p post Hp) as [rest Hrest].
  { by rewrite (framed_size_blank _ Hpre). }
  exists rest. by rewrite Hrest, (excerpts_blank _ Hpre).
Qed.

Lemma C4_first_page_included_witness :
  exists rest,
    _prepare_content_for_extraction ([blank_page] ++ small_page :: [long_page])
    = page_text small_page +:+ rest.
Proof.
  apply (C4_first_page_included [blank_page] [long_page] small_page).
  - repeat constructor; vm_compute; tauto.
  - vm_compute. intros [H _]. discriminate H.
  - vm_compute. discriminate.
Defined.

(** C5: when the combined framed size of the pages exceeds 500,000
    characters there is a first page [p] that fails the budget check; the
    output is exactly the excerpts of the pages before [p] (so [p] and all
    pages after it are absent), and its length is at most 500,000 plus the
    framing overhead of one page. *)
Theorem C5_packing_budget (pages : list Page) :
  framed_size pages > max_total_chars ->
  exists pre p post,
    pages = pre ++ p :: post
    /\ ~ blank p
    /\ framed_size pre <= max_total_chars
    /\ framed_size pre + len (page_text p) > max_total_chars
    /\ _prepare_content_for_extraction pages = join (excerpts pre)
    /\ (forall post', _prepare_content_for_extraction (pre ++ p :: post')
                      = _prepare_content_for_extraction pages)
    /\ len (_prepare_content_for_extraction pages)
       <= max_total_chars + framing_overhead p.
Proof.
  intros Hover.
  destruct (first_over_budget pages 0) as (pre & p & post & -> & Hp & Hfit & Hbrk);
    [unfold max_total_chars; lia|lia|].
  exists pre, p, post.
  assert (Hcut : forall post', _prepare_content_for_extraction (pre ++ p :: post')
                               = join (excerpts pre)).
  { intros post'. apply pack_cutoff; [done|lia|lia]. }
  repeat split.
  - by apply skipped_false_iff.
  - lia.
  - lia.
  - apply Hcut.
  - intros post'. by rewrite !Hcut.
  - pose proof (pack_within_budget (pre ++ p :: post)).
    rewrite framing_overhead_eq. pose proof (len_nonneg (page_url p)). lia.
Qed.

Lemma C5_packing_budget_witness :
  exists pre p post,
    replicate 11 long_page = pre ++ p :: post
    /\ ~ blank p
    /\ framed_size pre <= max_total_chars
    /\ framed_size pre + len (page_text p) > max_total_chars
    /\ _prepare_content_for_extraction (replicate 11 long_page) = join (excerpts pre)
    /\ (forall post', _prepare_content_for_extraction (pre ++ p :: post')
                      = _prepare_content_for_extraction (replicate 11 long_page))
    /\ len (_prepare_content_for_extraction (replicate 11 long_page))
       <= max_total_chars + framing_overhead p.
Proof.
  apply (C5_packing_budget (replicate 11 long_page)).
  destruct long_page_facts as (Hs & _ & Hl).
  cbn [replicate framed_size]. rewrite Hs, Hl. unfold max_total_chars. lia.
Defined.

(** C6: a page longer than 50,000 characters that is packed appears as its
    header, exactly the first 50,000 characters of its content, the
    truncation marker and the two closing newlines. *)
Theorem C6_per_page_truncation (pre post : list Page) (p : Page) :
  len (page_content p) > max_chars_per_page ->
  ~ blank p ->
  framed_size pre + len (page_text p) <= max_total_chars ->
  let kept := slice_to 50000 (page_content p) in
  len kept = 50000
  /\ prefix_of kept (page_content p)
  /\ page_text p
     = "--- PAGE: " +:+ page_url p +:+ " ---" +:+ LF
       +:+ (kept +:+ LF +:+ "...[content truncated]") +:+ LF +:+ LF
  /\ exists rest,
       _prepare_content_for_extraction (pre ++ p :: post)
       = join (excerpts pre)
         +:+ ("--- PAGE: " +:+ page_url p +:+ " ---" +:+ LF
              +:+ (kept +:+ LF +:+ "...[content truncated]") +:+ LF +:+ LF)
         +:+ rest.
Proof.
  intros Hlong Hp Hfit kept.
  assert (Htext : page_text p
     = "--- PAGE: " +:+ page_url p +:+ " ---" +:+ LF
       +:+ (kept +:+ LF +:+ "...[content truncated]") +:+ LF +:+ LF).
  { unfold page_text, frame, truncate_content.
    destruct (Z.gtb_spec (len (page_content p)) max_chars_per_page); [done|lia]. }
  split; [|split; [|split]].
  - unfold kept. rewrite len_slice_to by lia. unfold max_chars_per_page in Hlong. lia.
  - apply slice_to_prefix.
  - done.
  - rewrite <- Htext. apply pack_accepts; [by apply skipped_false_iff|done].
Qed.

Lemma C6_per_page_truncation_witness :
  let kept := slice_to 50000 (page_content long_page) in
  len kept = 50000
  /\ prefix_of kept (page_content long_page)
  /\ page_text long_page
     = "--- PAGE: " +:+ page_url long_page +:+ " ---" +:+ LF
       +:+ (kept +:+ LF +:+ "...[content truncated]") +:+ LF +:+ LF
  /\ exists rest,
       _prepare_content_for_extraction ([small_page] ++ long_page :: [small_page])
       = join (excerpts [small_page])
         +:+ ("--- PAGE: " +:+ page_url long_page +:+ " ---" +:+ LF
              +:+ (kept +:+ LF +:+ "...[content truncated]") +:+ LF +:+ LF)
         +:+ rest.
Proof.
  destruct long_page_facts as (Hs & Hc & Hl).
  apply (C6_per_page_truncation [small_page] [small_page] long_page).
  - rewrite Hc. unfold max_chars_per_page. lia.
  - by apply skipped_false_iff.
  - rewrite Hl. vm_compute. discriminate.
Defined.

(** C7: a page whose content is empty or only whitespace leaves the state
    of the loop (emitted excerpts and running total) untouched, so the
    output is the same as without the page; an input made of blank pages
    only packs to the empty string. *)
Theorem C7_blank_pages_skipped
    (pre post blanks : list Page) (p : Page) (st : PackState) :
  blank p -> Forall blank blanks ->
  pack_loop (p :: post) st = pack_loop post st
  /\ _prepare_content_for_extraction (pre ++ p :: post)
     = _prepare_content_for_extraction (pre ++ post)
  /\ _prepare_content_for_extraction blanks = "".
Proof.
  intros Hp Hb. apply skipped_iff in Hp. split; [|split].
  - by apply pack_loop_skip.
  - by rewrite !pack_eq, pack_loop_remove_skipped.
  - by apply pack_all_blank.
Qed.

Lemma C7_blank_pages_skipped_witness :
  pack_loop (blank_page :: [small_page]) (mkPackState ["x"] 1)
  = pack_loop [small_page] (mkPackState ["x"] 1)
  /\ _prepare_content_for_extraction ([small_page] ++ blank_page :: [small_page])
     = _prepare_content_for_extraction ([small_page] ++ [small_page])
  /\ _prepare_content_for_extraction [blank_page; no_content_page] = "".
Proof.
  apply (C7_blank_pages_skipped [small_page] [small_page]
           [blank_page; no_content_page] blank_page (mkPackState ["x"] 1)).
  - vm_compute. tauto.
  - repeat constructor; vm_compute; tauto.
Defined.

(** C9: the running total equals the full length of what was emitted
    (headers, contents, markers and newlines), so the packed output is
    never longer than 500,000 characters. *)
Theorem C9_output_within_budget (pages : list Page) :
  let st := pack_loop pages (mkPackState [] 0) in
  total_chars st = len (join (formatted_pages st))
  /\ len (_prepare_content_for_extraction pages) <= max_total_chars.
Proof.
  split; [|apply pack_within_budget].
  apply (pack_loop_inv pages _ pack_inv_init).
Qed.

(** C10: a page without the key "url" and with non-blank content is framed
    with the header of the placeholder URL and is packed (always when it is
    the only page, and in a sequence whenever the budget check admits it);
    a page without the key "content" has empty content and is skipped. *)
Theorem C10_missing_keys (pre post : list Page) (p q : Page) :
  p !! "url" = None -> ~ blank p -> q !! "content" = None ->
  page_text p
  = "--- PAGE: Unknown URL ---" +:+ LF
    +:+ truncate_content (page_content p) +:+ LF +:+ LF
  /\ _prepare_content_for_extraction [p] = page_text p
  /\ (framed_size pre + len (page_text p) <= max_total_chars ->
      exists rest, _prepare_content_for_extraction (pre ++ p :: post)
                   = join (excerpts pre) +:+ page_text p +:+ rest)
  /\ page_content q = ""
  /\ skipped q = true
  /\ _prepare_content_for_extraction (pre ++ q :: post)
     = _prepare_content_for_extraction (pre ++ post).
Proof.
  intros Hurl Hp Hq. apply skipped_false_iff in Hp.
  assert (Hu : page_url p = "Unknown URL") by (unfold page_url; by rewrite Hurl).
  assert (Hc : page_content q = "") by (unfold page_content; by rewrite Hq).
  assert (Hsq : skipped q = true) by (unfold skipped; by rewrite Hc).
  repeat split.
  - unfold page_text, frame. rewrite Hu. done.
  - pose proof (len_page_text_le p) as Hle. rewrite Hu in Hle.
    change (len "Unknown URL") with 11 in Hle.
    rewrite pack_eq, pack_loop_accept; [|done|].
    + cbn [pack_loop formatted_pages app]. apply join_singleton.
    + cbn [total_chars]. unfold max_total_chars, max_chars_per_page in *. lia.
  - intros Hfit. by apply pack_accepts.
  - done.
  - done.
  - by rewrite !pack_eq, pack_loop_remove_skipped.
Qed.

Lemma C10_missing_keys_witness :
  page_text no_url_page
  = "--- PAGE: Unknown URL ---" +:+ LF
    +:+ truncate_content (page_content no_url_page) +:+ LF +:+ LF
  /\ _prepare_content_for_extraction [no_url_page] = page_text no_url_page
  /\ (framed_size [small_page] + len (page_text no_url_page) <= max_total_chars ->
      exists rest, _prepare_content_for_extraction ([small_page] ++ no_url_page :: [])
                   = join (excerpts [small_page]) +:+ page_text no_url_page +:+ rest)
  /\ page_content no_content_page = ""
  /\ skipped no_content_page = true
  /\ _prepare_content_for_extraction ([small_page] ++ no_content_page :: [])
     = _prepare_content_for_extraction ([small_page] ++ []).
Proof.
  apply (C10_missing_keys [small_page] [] no_url_page no_content_page).
  - reflexivity.
  - vm_compute. intros [H _]. discriminate H.
  - reflexivity.
Defined.

End PackerClaims.

(** ** Properties of the response schema and of the orchestrator *)

Section SchemaFacts.

Lemma has_type_strs (l : list string) :
  forallb (has_type Tstr) (map Vstr l) = true.
Proof. induction l as [|s l IH]; [done|]. cbn [map forallb]. by rewrite IH. Qed.

Lemma has_type_professional (p : Professional.t) :
  has_type (Tmodel (annotations Professional.model_fields))
           (Professional.model_dump p) = true.
Proof. reflexivity. Qed.

Lemma has_type_professionals (l : list Professional.t) :
  forallb (has_type (Tmodel (annotations Professional.model_fields)))
          (map Professional.model_dump l) = true.
Proof.
  induction l as [|p l IH]; [done|]. cbn [map forallb].
  by rewrite has_type_professional, IH.
Qed.

Lemma has_type_business_hours (h : BusinessHours.t) :
  has_type (Tmodel (annotations BusinessHours.model_fields))
           (BusinessHours.model_dump h) = true.
Proof. reflexivity. Qed.

(** Every record of type [BusinessData.t] has all the declared fields,
    each of its declared type. *)
Lemma business_data_well_formed (d : BusinessData.t) : BusinessData.well_formed d.
Proof.
  unfold BusinessData.well_formed.
  change (has_type (Tmodel (annotations BusinessData.model_fields))
                   (BusinessData.model_dump d))
    with (has_type (Tmodel (annotations BusinessHours.model_fields))
                   (BusinessHours.model_dump (BusinessData.businessHours d))
          && (forallb (has_type (Tmodel (annotations Professional.model_fields)))
                      (map Professional.model_dump (BusinessData.professionals d))
              && (forallb (has_type Tstr) (map Vstr (BusinessData.servicesOffered d))
                  && (forallb (has_type Tstr) (map Vstr (BusinessData.specialties d))
                      && true)))).
  by rewrite has_type_business_hours, has_type_professionals, !has_type_strs.
Qed.

(** The field names of a dumped record are the declared ones, in order. *)
Lemma model_dump_fields (d : BusinessData.t) :
  match BusinessData.model_dump d with
  | Vmodel fields => map fst fields = map field_name BusinessData.model_fields
  | _ => False
  end.
Proof. reflexivity. Qed.

End SchemaFacts.

Section OrchestratorFacts.

Variable gemini_api_key : option string.
Variable generate_content : Client -> Request -> outcome Response.
Variable extraction_prompt : string.

Let extract := extract_business_data gemini_api_key generate_content extraction_prompt.

(** The request [extract_business_data] sends for a sequence of pages. *)
Let request_of (pages : list Page) : Request :=
  extraction_request extraction_prompt (_prepare_content_for_extraction pages).

Lemma get_gemini_client_missing w :
  key_truthy gemini_api_key = false ->
  get_gemini_client gemini_api_key w = (Raised config_error, w).
Proof. intros H. unfold get_gemini_client. by rewrite H. Qed.

Lemma get_gemini_client_present w :
  key_truthy gemini_api_key = true ->
  get_gemini_client gemini_api_key w
  = (Returned (mkClient (default "" gemini_api_key)), w).
Proof. intros H. unfold get_gemini_client. by rewrite H. Qed.

(** With a client in hand the result is decided by the answer of the
    service alone. *)
Lemma extract_with_client pages c w :
  extract pages (Some c) w =
  match generate_content c (request_of pages) with
  | Returned response =>
      (Returned (parsed response),
       mkWorld (log w) (requests w ++ [request_of pages]))
  | Raised e =>
      (Returned (Some BusinessData.default),
       mkWorld (log w ++ [mkLogRecord "ERROR"
                            ("Error calling Gemini API: " +:+ exc_message e) (Some e)])
               (requests w ++ [request_of pages]))
  end.
Proof.
  unfold extract, extract_business_data, bind, try_except, ret,
    await_generate_content, logger_error, request_of, _build_extraction_prompt.
  by destruct (generate_content c _).
Qed.

Lemma extract_without_client pages w :
  extract pages None w =
  if key_truthy gemini_api_key
  then extract pages (Some (mkClient (default "" gemini_api_key))) w
  else (Raised config_error, w).
Proof.
  unfold extract, extract_business_data at 1, bind at 1.
  destruct (key_truthy gemini_api_key) eqn:Hk.
  - by rewrite get_gemini_client_present.
  - by rewrite get_gemini_client_missing.
Qed.

Lemma extract_with_client_returns pages c w :
  exists d w', extract pages (Some c) w = (Returned d, w').
Proof.
  rewrite extract_with_client. destruct (generate_content c _); eauto.
Qed.

End OrchestratorFacts.

(** C1, as stated, fails: with no client passed in and no credential
    configured, extraction of the empty sequence raises. *)
Lemma C1_missing_credential_raises :
  extract_business_data None (answering_service BusinessData.default) "" [] None
    empty_world
  = (Raised config_error, empty_world).
Proof. reflexivity. Qed.

(** C1, amended: for every sequence of pages, when a client is passed in
    or the credential is configured, and the call of the generation service
    either raises or answers with a parsed record, [extract_business_data]
    raises nothing and returns a business record with every declared field
    present and of its declared type: the all-default record after a
    failure, the parsed record after an answer. *)
Theorem C1_extract_total
    (key : option string) (service : Client -> Request -> outcome Response)
    (prompt : string) (pages : list Page) (client : option Client)
    (c : Client) (w : World) :
  client_in_use key client c ->
  (exists e,
     service c (extraction_request prompt (_prepare_content_for_extraction pages))
     = Raised e)
  \/ (exists d,
        service c (extraction_request prompt (_prepare_content_for_extraction pages))
        = Returned (mkResponse (Some d))) ->
  exists d w',
    extract_business_data key service prompt pages client w = (Returned (Some d), w')
    /\ BusinessData.well_formed d
    /\ (forall e,
          service c (extraction_request prompt (_prepare_content_for_extraction pages))
          = Raised e -> d = BusinessData.default)
    /\ (forall d',
          service c (extraction_request prompt (_prepare_content_for_extraction pages))
          = Returned (mkResponse (Some d')) -> d = d').
Proof.
  intros Huse Hout.
  assert (Hc : extract_business_data key service prompt pages client w
               = extract_business_data key service prompt pages (Some c) w).
  { destruct Huse as [->|(-> & Hk & ->)]; [done|].
    by rewrite extract_without_client, Hk. }
  rewrite Hc, extract_with_client.
  destruct Hout as [[e He]|[d Hd]].
  - rewrite He. exists BusinessData.default. eexists.
    split; [reflexivity|]. split; [apply business_data_well_formed|].
    split; [done|]. intros d' Hd'. congruence.
  - rewrite Hd. exists d. eexists.
    split; [reflexivity|]. split; [apply business_data_well_formed|].
    split; [intros e He; congruence|]. intros d' Hd'. congruence.
Qed.

Lemma C1_extract_total_witness :
  exists d w',
    extract_business_data None (failing_service (mkExn "ServerError" "503")) ""
      [blank_page] (Some (mkClient "k")) empty_world = (Returned (Some d), w')
    /\ BusinessData.well_formed d
    /\ (forall e,
          failing_service (mkExn "ServerError" "503") (mkClient "k")
            (extraction_request "" (_prepare_content_for_extraction [blank_page]))
          = Raised e -> d = BusinessData.default)
    /\ (forall d',
          failing_service (mkExn "ServerError" "503") (mkClient "k")
            (extraction_request "" (_prepare_content_for_extraction [blank_page]))
          = Returned (mkResponse (Some d')) -> d = d').
Proof.
  apply (C1_extract_total None (failing_service (mkExn "ServerError" "503")) ""
           [blank_page] (Some (mkClient "k")) (mkClient "k") empty_world).
  - left. reflexivity.
  - left. exists (mkExn "ServerError" "503"). reflexivity.
Defined.

(** C2: whenever the call of the generation service raises, whatever the
    pages, [extract_business_data] logs one error record carrying the
    message and the exception, and returns the all-default record: every
    string empty, every list empty, [is_24_7] false, every day of
    [businessHours] empty. *)
Theorem C2_failure_returns_defaults
    (key : option string) (service : Client -> Request -> outcome Response)
    (prompt : string) (pages : list Page) (client : option Client)
    (c : Client) (e : exn) (w : World) :
  client = Some c
  \/ (client = None /\ key_truthy key = true /\ c = mkClient (default "" key)) ->
  service c (extraction_request prompt (_prepare_content_for_extraction pages))
  = Raised e ->
  extract_business_data key service prompt pages client w
  = (Returned
       (Some (BusinessData.make "" "" "" "" "" "" "" ""
                (BusinessHours.make "" "" "" "" "" "" "") false "" [] "" "" [] "" [])),
     mkWorld
       (log w ++ [mkLogRecord "ERROR"
                    ("Error calling Gemini API: " +:+ exc_message e) (Some e)])
       (requests w
        ++ [extraction_request prompt (_prepare_content_for_extraction pages)])).
Proof.
  intros [->|(-> & Hk & ->)] Hfail.
  - by rewrite extract_with_client, Hfail.
  - by rewrite extract_without_client, Hk, extract_with_client, Hfail.
Qed.

Lemma C2_failure_returns_defaults_witness :
  extract_business_data (Some "k") (failing_service (mkExn "TimeoutError" "timed out"))
    "" [small_page] None empty_world
  = (Returned
       (Some (BusinessData.make "" "" "" "" "" "" "" ""
                (BusinessHours.make "" "" "" "" "" "" "") false "" [] "" "" [] "" [])),
     mkWorld
       (log empty_world
        ++ [mkLogRecord "ERROR"
              ("Error calling Gemini API: "
               +:+ exc_message (mkExn "TimeoutError" "timed out"))
              (Some (mkExn "TimeoutError" "timed out"))])
       (requests empty_world
        ++ [extraction_request "" (_prepare_content_for_extraction [small_page])])).
Proof.
  apply (C2_failure_returns_defaults (Some "k")
           (failing_service (mkExn "TimeoutError" "timed out")) "" [small_page]
           None (mkClient "k") (mkExn "TimeoutError" "timed out") empty_world).
  - right. repeat split; reflexivity.
  - reflexivity.
Defined.

(** C3: the fields of [BusinessData] annotated [str], in declaration order,
    each with the default [""].  The second field is declared
    [phoneNumber]; no field is named [phoneNumbers]. *)
Theorem C3_string_fields_of_business_data :
  string_fields BusinessData.model_fields
  = [ ("name", Some (Vstr "")); ("phoneNumber", Some (Vstr ""));
      ("address", Some (Vstr "")); ("city", Some (Vstr ""));
      ("state", Some (Vstr "")); ("pincode", Some (Vstr ""));
      ("website", Some (Vstr "")); ("email", Some (Vstr ""));
      ("holidayClosures", Some (Vstr "")); ("manager", Some (Vstr ""));
      ("operationsLead", Some (Vstr "")); ("servicesNotOffered", Some (Vstr "")) ]
  /\ ~ In "phoneNumbers" (map field_name BusinessData.model_fields)
  /\ BusinessData.phoneNumber BusinessData.default = "".
Proof.
  split; [reflexivity|]. split; [|reflexivity].
  cbn [map BusinessData.model_fields field_name In]. intuition discriminate.
Qed.

(** C8, as stated, fails: the missing-credential error is also raised
    during a call of [extract_business_data], namely when the call is given
    no client and has to construct one itself. *)
Lemma C8_config_error_raised_by_extract :
  extract_business_data None (answering_service BusinessData.default) ""
    [small_page] None empty_world
  = (Raised config_error, empty_world)
  /\ get_gemini_client None empty_world = (Raised config_error, empty_world).
Proof. split; reflexivity. Qed.

(** C8, amended: an exception that leaves [extract_business_data] is the
    missing-credential error and nothing else; it comes from the
    construction of the client ([get_gemini_client], which raises at once
    and leaves the world untouched), which the call performs only when no
    client was passed in, before packing and before any request is sent or
    anything is logged.  With a client passed in, the call never raises. *)
Theorem C8_only_config_error_propagates
    (key : option string) (service : Client -> Request -> outcome Response)
    (prompt : string) (pages : list Page) (client : option Client)
    (w w' : World) (e : exn) :
  extract_business_data key service prompt pages client w = (Raised e, w') ->
  e = config_error
  /\ client = None
  /\ key_truthy key = false
  /\ w' = w
  /\ (forall w0, get_gemini_client key w0 = (Raised config_error, w0))
  /\ (forall c w0, exists d w1,
        extract_business_data key service prompt pages (Some c) w0
        = (Returned d, w1)).
Proof.
  intros Hraise.
  assert (Hsome : forall c w0, exists d w1,
            extract_business_data key service prompt pages (Some c) w0
            = (Returned d, w1)) by (intros; apply extract_with_client_returns).
  destruct client as [c|].
  { destruct (Hsome c w) as (d & w1 & Hd). congruence. }
  rewrite extract_without_client in Hraise.
  destruct (key_truthy key) eqn:Hk.
  { destruct (Hsome (mkClient (default "" key)) w) as (d & w1 & Hd). congruence. }
  inversion Hraise; subst. repeat split; [|done].
  intros w0. by apply get_gemini_client_missing.
Qed.

Lemma C8_only_config_error_propagates_witness :
  config_error = config_error
  /\ @None Client = None
  /\ key_truthy (Some "") = false
  /\ empty_world = empty_world
  /\ (forall w0, get_gemini_client (Some "") w0 = (Raised config_error, w0))
  /\ (forall c w0, exists d w1,
        extract_business_data (Some "") (answering_service BusinessData.default)
          "" [small_page] (Some c) w0
        = (Returned d, w1)).
Proof.
  apply (C8_only_config_error_propagates (Some "")
           (answering_service BusinessData.default) "" [small_page] None
           empty_world empty_world config_error).
  reflexivity.
Defined.

(** ** The instruction text *)

Example extraction_prompt_length : Str.len extraction_prompt_text = 5369.
Proof. vm_compute. reflexivity. Qed.

(** ** Further properties of the content packer *)

Section PackerExtras.
Import Str.

Lemma pack_under_budget pages :
  framed_size pages <= max_total_chars ->
  _prepare_content_for_extraction pages = join (excerpts pages).
Proof.
  intros Hfit. rewrite <- (app_nil_r pages) at 1.
  rewrite pack_eq, pack_loop_fits by (cbn [total_chars]; lia). done.
Qed.

(** Two sequences whose pages agree on url and content are packed alike. *)
Lemma pack_loop_same_fields ps qs st :
  Forall2 same_fields ps qs -> pack_loop ps st = pack_loop qs st.
Proof.
  intros H. revert st. induction H as [|p q ps qs [Hu Hc] _ IH]; intros st; [done|].
  assert (Hs : skipped p = skipped q) by (unfold skipped; by rewrite Hc).
  assert (Ht : page_text p = page_text q) by (unfold page_text; by rewrite Hu, Hc).
  rewrite !pack_loop_cons, Hs, Ht. destruct (skipped q); [apply IH|].
  destruct (total_chars st + len (page_text q) >? max_total_chars); [done|apply IH].
Qed.

Lemma same_fields_refl p : same_fields p p.
Proof. by split. Qed.

Lemma pack_replace_same pre p q post :
  same_fields p q ->
  _prepare_content_for_extraction (pre ++ p :: post)
  = _prepare_content_for_extraction (pre ++ q :: post).
Proof.
  intros H. rewrite !pack_eq. f_equal. f_equal. apply pack_loop_same_fields.
  apply Forall2_app; [|constructor; [done|]];
    apply Forall_Forall2_diag, Forall_forall; intros; apply same_fields_refl.
Qed.

Lemma pack_loop_app_extends pre post st :
  exists more,
    formatted_pages (pack_loop (pre ++ post) st)
    = formatted_pages (pack_loop pre st) ++ more.
Proof.
  revert st. induction pre as [|q pre IH]; intros st.
  - apply pack_loop_extends.
  - change ((q :: pre) ++ post) with (q :: (pre ++ post)).
    rewrite !pack_loop_cons. destruct (skipped q); [apply IH|].
    destruct (total_chars st + len (page_text q) >? max_total_chars); [|apply IH].
    exists []. by rewrite app_nil_r.
Qed.

Lemma frame_starts url content : starts_with "--- PAGE: " (frame url content).
Proof. by eexists. Qed.

Lemma frame_ends url content : ends_with (LF +:+ LF) (frame url content).
Proof.
  exists ("--- PAGE: " +:+ url +:+ " ---" +:+ LF +:+ content).
  unfold frame. by rewrite !append_assoc.
Qed.

Lemma join_excerpts_shape pages :
  join (excerpts pages) = ""
  \/ (starts_with "--- PAGE: " (join (excerpts pages))
      /\ ends_with (LF +:+ LF) (join (excerpts pages))).
Proof.
  induction pages as [|p pages IH]; [by left|]. cbn [excerpts].
  destruct (skipped p); [done|]. right. cbn [join]. split.
  - destruct (frame_starts (page_url p) (truncate_content (page_content p))) as [r Hr].
    exists (r +:+ join (excerpts pages)). unfold page_text. by rewrite Hr, append_assoc.
  - destruct IH as [->|[_ [r Hr]]].
    + rewrite append_nil_r. apply frame_ends.
    + exists (page_text p +:+ r). by rewrite Hr, append_assoc.
Qed.

(** X1: the packed output is the excerpts, in input order, of the pages
    that are not blank in an initial segment of the input; the segment is
    the whole input, or it ends just before the first page that does not
    fit the budget. *)
Theorem X1_pack_keeps_input_order (pages : list Page) :
  exists pre post,
    pages = pre ++ post
    /\ _prepare_content_for_extraction pages = join (excerpts pre)
    /\ framed_size pre <= max_total_chars
    /\ (post = []
        \/ exists p post', post = p :: post' /\ ~ blank p
             /\ framed_size pre + len (page_text p) > max_total_chars).
Proof.
  destruct (Z.le_gt_cases (framed_size pages) max_total_chars) as [Hfit|Hover].
  - exists pages, []. rewrite app_nil_r. repeat split; [|done|by left].
    by apply pack_under_budget.
  - destruct (first_over_budget pages 0) as (pre & p & post & -> & Hp & Hfit & Hbrk);
      [unfold max_total_chars; lia|lia|].
    exists pre, (p :: post). repeat split; [|lia|].
    + apply pack_cutoff; [done|lia|lia].
    + right. exists p, post. repeat split; [by apply skipped_false_iff|lia].
Qed.

(** X2: when the framed sizes of the non-blank pages add up to at most
    500,000, no page is dropped: the output is all their excerpts and its
    length is exactly that sum. *)
Theorem X2_under_budget_nothing_dropped (pages : list Page) :
  framed_size pages <= max_total_chars ->
  _prepare_content_for_extraction pages = join (excerpts pages)
  /\ len (_prepare_content_for_extraction pages) = framed_size pages.
Proof.
  intros Hfit. rewrite pack_under_budget by done.
  split; [done|apply len_join_excerpts].
Qed.

Lemma X2_under_budget_nothing_dropped_witness :
  _prepare_content_for_extraction [small_page; blank_page; no_url_page]
  = join (excerpts [small_page; blank_page; no_url_page])
  /\ len (_prepare_content_for_extraction [small_page; blank_page; no_url_page])
     = framed_size [small_page; blank_page; no_url_page].
Proof.
  apply (X2_under_budget_nothing_dropped [small_page; blank_page; no_url_page]).
  vm_compute. discriminate.
Defined.

(** X3: packing is stable under appending pages: what is packed for a
    sequence is an initial segment of what is packed for any extension of
    it. *)
Theorem X3_appending_pages_extends_output (pre post : list Page) :
  prefix_of (_prepare_content_for_extraction pre)
            (_prepare_content_for_extraction (pre ++ post)).
Proof.
  destruct (pack_loop_app_extends pre post (mkPackState [] 0)) as [more Hm].
  exists (join more). by rewrite !pack_eq, Hm, join_app.
Qed.

(** X4: the packer reads only the keys "url" and "content": setting any
    other key of a page, or removing it, does not change the output. *)
Theorem X4_other_keys_ignored
    (pre post : list Page) (p : Page) (k v : string) :
  k <> "url" -> k <> "content" ->
  _prepare_content_for_extraction (pre ++ <[k := v]> p :: post)
  = _prepare_content_for_extraction (pre ++ p :: post)
  /\ _prepare_content_for_extraction (pre ++ delete k p :: post)
     = _prepare_content_for_extraction (pre ++ p :: post).
Proof.
  intros Hu Hc. split; apply pack_replace_same; split; unfold page_url, page_content.
  - by rewrite lookup_insert_ne.
  - by rewrite lookup_insert_ne.
  - by rewrite lookup_delete_ne.
  - by rewrite lookup_delete_ne.
Qed.

Lemma X4_other_keys_ignored_witness :
  _prepare_content_for_extraction ([blank_page] ++ <["title" := "Home"]> small_page :: [])
  = _prepare_content_for_extraction ([blank_page] ++ small_page :: [])
  /\ _prepare_content_for_extraction ([blank_page] ++ delete "title" small_page :: [])
     = _prepare_content_for_extraction ([blank_page] ++ small_page :: []).
Proof.
  apply (X4_other_keys_ignored [blank_page] [] small_page "title" "Home");
    discriminate.
Defined.

(** X5: a page without the key "url" is packed exactly like the same page
    with the url "Unknown URL", and a page without the key "content" exactly
    like the same page with empty content. *)
Theorem X5_missing_key_is_default (pre post : list Page) (p q : Page) :
  p !! "url" = None -> q !! "content" = None ->
  _prepare_content_for_extraction (pre ++ p :: post)
  = _prepare_content_for_extraction (pre ++ <["url" := "Unknown URL"]> p :: post)
  /\ _prepare_content_for_extraction (pre ++ q :: post)
     = _prepare_content_for_extraction (pre ++ <["content" := ""]> q :: post).
Proof.
  intros Hp Hq. split; apply pack_replace_same; split; unfold page_url, page_content.
  - by rewrite Hp, lookup_insert_eq.
  - by rewrite lookup_insert_ne.
  - by rewrite lookup_insert_ne.
  - by rewrite Hq, lookup_insert_eq.
Qed.

Lemma X5_missing_key_is_default_witness :
  _prepare_content_for_extraction ([small_page] ++ no_url_page :: [])
  = _prepare_content_for_extraction
      ([small_page] ++ <["url" := "Unknown URL"]> no_url_page :: [])
  /\ _prepare_content_for_extraction ([small_page] ++ no_content_page :: [])
     = _prepare_content_for_extraction
         ([small_page] ++ <["content" := ""]> no_content_page :: []).
Proof.
  apply (X5_missing_key_is_default [small_page] [] no_url_page no_content_page);
    reflexivity.
Defined.

End PackerExtras.

Section PackerExtrasMore.
Import Str.

Lemma cap_page_facts :
  skipped cap_page = false
  /\ len (page_content cap_page) = 50000
  /\ len (page_text cap_page) = 50022.
Proof.
  unfold cap_page. split; [|split].
  - apply skipped_false_iff.
    apply (not_blank_first_char _ "a"%char (repeat_char 49999 "a")); [|done].
    rewrite lookup_page_content. by rewrite <- repeat_char_succ.
  - rewrite lookup_page_content. by rewrite len_repeat_char.
  - rewrite len_page_text, len_truncate_content, lookup_page_url, lookup_page_content.
    rewrite len_repeat_char by lia. done.
Qed.

Lemma framed_size_le_excerpts pages (b : Z) :
  Forall (fun p => len (page_url p) <= b) pages ->
  framed_size pages <= Z.of_nat (length (excerpts pages)) * (b + 50040).
Proof.
  induction 1 as [|p pages Hp _ IH]; [done|].
  cbn [framed_size excerpts]. pose proof (len_page_text_le p).
  pose proof (len_nonneg (page_url p)). unfold max_chars_per_page in *.
  destruct (skipped p); cbn [length]; lia.
Qed.

(** X6: a page whose content has at most 50,000 characters (the cap
    included) and that is packed appears with its content unchanged: no
    marker is added and whitespace around the text is kept. *)
Theorem X6_content_within_cap_verbatim (pre post : list Page) (p : Page) :
  len (page_content p) <= max_chars_per_page ->
  ~ blank p ->
  framed_size pre + len (page_text p) <= max_total_chars ->
  len (page_text p) = 17 + len (page_url p) + len (page_content p)
  /\ exists rest,
       _prepare_content_for_extraction (pre ++ p :: post)
       = join (excerpts pre)
         +:+ ("--- PAGE: " +:+ page_url p +:+ " ---" +:+ LF
              +:+ page_content p +:+ LF +:+ LF)
         +:+ rest.
Proof.
  intros Hshort Hp Hfit.
  assert (Ht : truncate_content (page_content p) = page_content p).
  { unfold truncate_content.
    destruct (Z.gtb_spec (len (page_content p)) max_chars_per_page); [lia|done]. }
  split.
  - by rewrite len_page_text, Ht.
  - destruct (pack_accepts pre p post) as [rest Hrest];
      [by apply skipped_false_iff|done|].
    exists rest. rewrite Hrest. unfold page_text, frame. by rewrite Ht.
Qed.

Lemma X6_content_within_cap_verbatim_witness :
  len (page_text cap_page) = 17 + len (page_url cap_page) + len (page_content cap_page)
  /\ exists rest,
       _prepare_content_for_extraction ([padded_page] ++ cap_page :: [small_page])
       = join (excerpts [padded_page])
         +:+ ("--- PAGE: " +:+ page_url cap_page +:+ " ---" +:+ LF
              +:+ page_content cap_page +:+ LF +:+ LF)
         +:+ rest.
Proof.
  destruct cap_page_facts as (Hs & Hc & Hl).
  apply (X6_content_within_cap_verbatim [padded_page] [small_page] cap_page).
  - rewrite Hc. unfold max_chars_per_page. lia.
  - by apply skipped_false_iff.
  - rewrite Hl. vm_compute. discriminate.
Defined.

(** X7: the budget always has room for nine pages: when at most nine pages
    of the input are not blank and no URL is longer than 5,515 characters,
    every non-blank page is packed, whatever the lengths of the contents. *)
Theorem X7_nine_pages_always_fit (pages : list Page) :
  (length (excerpts pages) <= 9)%nat ->
  Forall (fun p => len (page_url p) <= 5515) pages ->
  _prepare_content_for_extraction pages = join (excerpts pages).
Proof.
  intros Hn Hu. apply pack_under_budget.
  pose proof (framed_size_le_excerpts pages 5515 Hu). unfold max_total_chars. nia.
Qed.

Lemma X7_nine_pages_always_fit_witness :
  _prepare_content_for_extraction (replicate 9 long_page)
  = join (excerpts (replicate 9 long_page)).
Proof.
  destruct long_page_facts as (Hs & _ & _).
  assert (Hu : len (page_url long_page) <= 5515).
  { unfold long_page. rewrite lookup_page_url. vm_compute. discriminate. }
  apply (X7_nine_pages_always_fit (replicate 9 long_page)).
  - cbn [replicate excerpts]. rewrite Hs. cbn [length]. lia.
  - cbn [replicate]. repeat constructor; exact Hu.
Defined.

(** The excerpts of a sequence are the whole excerpts of its pages that
    are not blank, in order. *)
Lemma excerpts_of_kept_pages pages :
  exists kept : list Page,
    sublist kept pages
    /\ Forall (fun p => ~ blank p) kept
    /\ excerpts pages = map page_text kept.
Proof.
  induction pages as [|p pages (kept & Hsub & Hnb & He)].
  - exists []. repeat split; constructor.
  - cbn [excerpts]. destruct (skipped p) eqn:Hs.
    + exists kept. repeat split; [by apply sublist_cons|done|done].
    + exists (p :: kept). repeat split.
      * by apply sublist_skip.
      * constructor; [by apply skipped_false_iff|done].
      * cbn [map]. by rewrite He.
Qed.

(** X8: the packed output is either empty or a sequence of whole excerpts:
    it is the concatenation of the complete excerpts (header, content cut
    at the per-page cap, closing line feeds) of some of the non-blank pages
    of the input, in input order, so the budget never cuts an excerpt in
    the middle; when it is not empty it begins with the page header marker
    and ends with the two line feeds that close an excerpt. *)
Theorem X8_output_made_of_whole_excerpts (pages : list Page) :
  (exists kept : list Page,
     sublist kept pages
     /\ Forall (fun p => ~ blank p) kept
     /\ _prepare_content_for_extraction pages
        = join (map (fun p => frame (page_url p)
                                    (truncate_content (page_content p))) kept))
  /\ (_prepare_content_for_extraction pages = ""
      \/ (starts_with "--- PAGE: " (_prepare_content_for_extraction pages)
          /\ ends_with (LF +:+ LF) (_prepare_content_for_extraction pages))).
Proof.
  assert (Hpre : exists pre post,
            pages = pre ++ post
            /\ _prepare_content_for_extraction pages = join (excerpts pre)).
  { destruct (Z.le_gt_cases (framed_size pages) max_total_chars) as [Hfit|Hover].
    - exists pages, []. by rewrite app_nil_r, pack_under_budget.
    - destruct (first_over_budget pages 0) as (pre & p & post & -> & Hp & Hfit & Hbrk);
        [unfold max_total_chars; lia|lia|].
      exists pre, (p :: post). by rewrite pack_cutoff by (done || lia). }
  destruct Hpre as (pre & post & -> & Hout). rewrite Hout. split.
  - destruct (excerpts_of_kept_pages pre) as (kept & Hsub & Hnb & He).
    exists kept. repeat split; [by apply sublist_inserts_r|done|by rewrite He].
  - apply join_excerpts_shape.
Qed.

Example padded_page_packed :
  _prepare_content_for_extraction [padded_page]
  = "--- PAGE: d.com ---" +:+ LF +:+ "  hours: 9-5 " +:+ LF +:+ LF.
Proof. vm_compute. reflexivity. Qed.

End PackerExtrasMore.

(** ** Further properties of the orchestrator *)

Section OrchestratorExtras.
Import Str.

Lemma extract_in_use key service prompt pages client c w :
  client_in_use key client c ->
  extract_business_data key service prompt pages client w
  = extract_business_data key service prompt pages (Some c) w.
Proof.
  intros [->|(-> & Hk & ->)]; [done|].
  by rewrite extract_without_client, Hk.
Qed.

Lemma len_request_contents prompt pages :
  len (contents (extraction_request prompt (_prepare_content_for_extraction pages)))
  <= len prompt + 2 + max_total_chars.
Proof.
  cbn [contents extraction_request]. rewrite !len_app.
  change (len LF) with 1. pose proof (pack_within_budget pages). lia.
Qed.

Lemma extraction_prompt_len : len extraction_prompt_text = 5369.
Proof. vm_compute. reflexivity. Qed.

(** X9: when the generation service answers, [extract_business_data]
    returns the parsed answer unmodified, logs nothing and has sent exactly
    the one request. *)
Theorem X9_answer_returned_unmodified
    (key : option string) (service : Client -> Request -> outcome Response)
    (prompt : string) (pages : list Page) (client : option Client)
    (c : Client) (r : Response) (w : World) :
  client_in_use key client c ->
  service c (extraction_request prompt (_prepare_content_for_extraction pages))
  = Returned r ->
  extract_business_data key service prompt pages client w
  = (Returned (parsed r),
     mkWorld (log w)
       (requests w
        ++ [extraction_request prompt (_prepare_content_for_extraction pages)])).
Proof.
  intros Huse Hans.
  by rewrite (extract_in_use _ _ _ _ _ c), extract_with_client, Hans.
Qed.

Lemma X9_answer_returned_unmodified_witness :
  extract_business_data (Some "k")
    (answering_service (BusinessData.make "Oak Vet" "(555) 111-2222" "" "" "" "" "" ""
                          BusinessHours.default true "" [] "" "" ["Microchipping"] "" []))
    "" [small_page] None empty_world
  = (Returned
       (parsed (mkResponse
          (Some (BusinessData.make "Oak Vet" "(555) 111-2222" "" "" "" "" "" ""
                   BusinessHours.default true "" [] "" "" ["Microchipping"] "" [])))),
     mkWorld (log empty_world)
       (requests empty_world
        ++ [extraction_request "" (_prepare_content_for_extraction [small_page])])).
Proof.
  apply (X9_answer_returned_unmodified (Some "k") _ "" [small_page] None
           (mkClient "k")).
  - right. repeat split; reflexivity.
  - reflexivity.
Defined.

(** X10: a call that has a client sends exactly one request, whatever the
    service does with it, and only appends to the world: the earlier
    requests and log records are kept, and at most one log record is
    added, exactly when the service raised. *)
Theorem X10_exactly_one_request
    (key : option string) (service : Client -> Request -> outcome Response)
    (prompt : string) (pages : list Page) (client : option Client)
    (c : Client) (w : World) :
  client_in_use key client c ->
  exists d w',
    extract_business_data key service prompt pages client w = (Returned d, w')
    /\ requests w'
       = requests w
         ++ [extraction_request prompt (_prepare_content_for_extraction pages)]
    /\ ((exists r, service c (extraction_request prompt
                                (_prepare_content_for_extraction pages)) = Returned r
                   /\ log w' = log w)
        \/ (exists e, service c (extraction_request prompt
                                   (_prepare_content_for_extraction pages)) = Raised e
                      /\ log w' = log w
                           ++ [mkLogRecord "ERROR"
                                 ("Error calling Gemini API: " +:+ exc_message e)
                                 (Some e)])).
Proof.
  intros Huse. rewrite (extract_in_use _ _ _ _ _ c), extract_with_client by done.
  destruct (service c _) as [r|e] eqn:Hs; do 2 eexists; (split; [reflexivity|]);
    (split; [reflexivity|]); [left|right]; eauto.
Qed.

Lemma X10_exactly_one_request_witness :
  exists d w',
    extract_business_data None (failing_service (mkExn "ClientError" "429"))
      "" [small_page] (Some (mkClient "k")) (mkWorld [] []) = (Returned d, w')
    /\ requests w'
       = requests (mkWorld [] [])
         ++ [extraction_request "" (_prepare_content_for_extraction [small_page])]
    /\ ((exists r, failing_service (mkExn "ClientError" "429") (mkClient "k")
                     (extraction_request ""
                        (_prepare_content_for_extraction [small_page])) = Returned r
                   /\ log w' = log (mkWorld [] []))
        \/ (exists e, failing_service (mkExn "ClientError" "429") (mkClient "k")
                        (extraction_request ""
                           (_prepare_content_for_extraction [small_page])) = Raised e
                      /\ log w' = log (mkWorld [] [])
                           ++ [mkLogRecord "ERROR"
                                 ("Error calling Gemini API: " +:+ exc_message e)
                                 (Some e)])).
Proof.
  apply (X10_exactly_one_request None (failing_service (mkExn "ClientError" "429"))
           "" [small_page] (Some (mkClient "k")) (mkClient "k") (mkWorld [] [])).
  left. reflexivity.
Defined.

(** X11: the text sent to the service is the instruction text, an empty
    line and the packed pages; its length is at most that of the
    instruction text plus 500,002, which with the instruction text of the
    source is at most 505,371 characters, below the 800,000 the comment of
    line 136 gives as the limit. *)
Theorem X11_request_text_bounded (pages : list Page) :
  (forall prompt,
     len (contents (extraction_request prompt
                      (_prepare_content_for_extraction pages)))
     <= len prompt + 500002)
  /\ len (contents (extraction_request extraction_prompt_text
                      (_prepare_content_for_extraction pages))) <= 505371
  /\ 505371 < 800000.
Proof.
  split; [|split; [|lia]].
  - intros prompt. pose proof (len_request_contents prompt pages).
    unfold max_total_chars in *. lia.
  - pose proof (len_request_contents extraction_prompt_text pages) as H.
    rewrite extraction_prompt_len in H. unfold max_total_chars in *. lia.
Qed.

(** X12: there is no short cut for an input without text: when every page
    is blank (or there is no page) the request is still sent, its text
    being the instruction text followed by the empty line. *)
Theorem X12_blank_input_still_sent
    (key : option string) (service : Client -> Request -> outcome Response)
    (prompt : string) (pages : list Page) (client : option Client)
    (c : Client) (w : World) :
  client_in_use key client c -> Forall blank pages ->
  exists d w' req,
    extract_business_data key service prompt pages client w = (Returned d, w')
    /\ requests w' = requests w ++ [req]
    /\ contents req = prompt +:+ LF +:+ LF.
Proof.
  intros Huse Hb. rewrite (extract_in_use _ _ _ _ _ c), extract_with_client by done.
  rewrite (pack_all_blank _ Hb).
  destruct (service c _); do 3 eexists; (split; [reflexivity|]);
    (split; [reflexivity|]); cbn [contents extraction_request];
    by rewrite append_nil_r.
Qed.

Lemma X12_blank_input_still_sent_witness :
  exists d w' req,
    extract_business_data None (answering_service BusinessData.default) "p"
      [blank_page; no_content_page] (Some (mkClient "k")) empty_world
    = (Returned d, w')
    /\ requests w' = requests empty_world ++ [req]
    /\ contents req = "p" +:+ LF +:+ LF.
Proof.
  apply (X12_blank_input_still_sent None (answering_service BusinessData.default)
           "p" [blank_page; no_content_page] (Some (mkClient "k")) (mkClient "k")).
  - left. reflexivity.
  - repeat constructor; vm_compute; tauto.
Defined.

(** X13: a client that is passed in is used as it is, and the credential
    setting is not read; a call without a client and with the key [k]
    configured behaves exactly like a call that is passed [Client(k)]. *)
Theorem X13_client_argument_and_setting
    (service : Client -> Request -> outcome Response)
    (prompt : string) (pages : list Page) (c : Client) (k : string) (w : World) :
  k <> "" ->
  (forall key key',
     extract_business_data key service prompt pages (Some c) w
     = extract_business_data key' service prompt pages (Some c) w)
  /\ extract_business_data (Some k) service prompt pages None w
     = extract_business_data (Some k) service prompt pages (Some (mkClient k)) w.
Proof.
  intros Hk. split.
  - intros key key'. by rewrite !extract_with_client.
  - rewrite extract_without_client. cbn [key_truthy]. by destruct k.
Qed.

Lemma X13_client_argument_and_setting_witness :
  (forall key key',
     extract_business_data key (answering_service BusinessData.default) ""
       [small_page] (Some (mkClient "other")) empty_world
     = extract_business_data key' (answering_service BusinessData.default) ""
         [small_page] (Some (mkClient "other")) empty_world)
  /\ extract_business_data (Some "k") (answering_service BusinessData.default) ""
       [small_page] None empty_world
     = extract_business_data (Some "k") (answering_service BusinessData.default) ""
         [small_page] (Some (mkClient "k")) empty_world.
Proof.
  apply (X13_client_argument_and_setting (answering_service BusinessData.default)
           "" [small_page] (mkClient "other") "k" empty_world).
  discriminate.
Defined.

(** X14: [get_gemini_client] returns a client exactly when the key is set
    and not empty; the client then carries that very key, and the world is
    left as it was.  An empty key is refused like a missing one. *)
Theorem X14_client_construction (key : option string) (c : Client) (w w' : World) :
  (get_gemini_client key w = (Returned c, w')
   <-> key = Some (api_key c) /\ api_key c <> "" /\ w' = w)
  /\ get_gemini_client (Some "") w = get_gemini_client None w.
Proof.
  split; [|reflexivity]. unfold get_gemini_client. split.
  - destruct key as [[|a k]|]; cbn; intros H; inversion H; subst. done.
  - destruct c as [k]. cbn. intros (-> & Hk & ->). by destruct k.
Qed.

(** X15: the value returned after a failure of the service is the value
    returned when the service answers with the all-default record; the two
    runs differ only in the log. *)
Theorem X15_failure_looks_like_empty_answer
    (key : option string) (failing answering : Client -> Request -> outcome Response)
    (prompt : string) (pages : list Page) (client : option Client)
    (c : Client) (e : exn) (w : World) :
  client_in_use key client c ->
  failing c (extraction_request prompt (_prepare_content_for_extraction pages))
  = Raised e ->
  answering c (extraction_request prompt (_prepare_content_for_extraction pages))
  = Returned (mkResponse (Some BusinessData.default)) ->
  fst (extract_business_data key failing prompt pages client w)
  = fst (extract_business_data key answering prompt pages client w)
  /\ requests (snd (extract_business_data key failing prompt pages client w))
     = requests (snd (extract_business_data key answering prompt pages client w))
  /\ log (snd (extract_business_data key failing prompt pages client w))
     <> log (snd (extract_business_data key answering prompt pages client w)).
Proof.
  intros Huse Hf Ha.
  rewrite (extract_in_use key failing prompt pages client c w Huse).
  rewrite (extract_in_use key answering prompt pages client c w Huse).
  rewrite !extract_with_client, Hf, Ha.
  cbn [fst snd log requests parsed]. repeat split.
  intros H. apply (f_equal length) in H. rewrite length_app in H. cbn in H. lia.
Qed.

Lemma X15_failure_looks_like_empty_answer_witness :
  fst (extract_business_data None (failing_service (mkExn "ServerError" "503")) ""
         [small_page] (Some (mkClient "k")) empty_world)
  = fst (extract_business_data None (answering_service BusinessData.default) ""
           [small_page] (Some (mkClient "k")) empty_world)
  /\ requests (snd (extract_business_data None
                      (failing_service (mkExn "ServerError" "503")) ""
                      [small_page] (Some (mkClient "k")) empty_world))
     = requests (snd (extract_business_data None
                        (answering_service BusinessData.default) ""
                        [small_page] (Some (mkClient "k")) empty_world))
  /\ log (snd (extract_business_data None
                 (failing_service (mkExn "ServerError" "503")) ""
                 [small_page] (Some (mkClient "k")) empty_world))
     <> log (snd (extract_business_data None
                    (answering_service BusinessData.default) ""
                    [small_page] (Some (mkClient "k")) empty_world)).
Proof.
  apply (X15_failure_looks_like_empty_answer None
           (failing_service (mkExn "ServerError" "503"))
           (answering_service BusinessData.default) "" [small_page]
           (Some (mkClient "k")) (mkClient "k") (mkExn "ServerError" "503")
           empty_world).
  - left. reflexivity.
  - reflexivity.
  - reflexivity.
Defined.

(** X18: when the service answers but its reply carries no parsed record
    ([response.parsed] is [None]), [extract_business_data] returns that
    [None] as it is: the default record is not put in its place and nothing
    is logged. *)
Theorem X18_unparsed_answer_returned_as_is
    (key : option string) (service : Client -> Request -> outcome Response)
    (prompt : string) (pages : list Page) (client : option Client)
    (c : Client) (w : World) :
  client_in_use key client c ->
  service c (extraction_request prompt (_prepare_content_for_extraction pages))
  = Returned (mkResponse None) ->
  extract_business_data key service prompt pages client w
  = (Returned None,
     mkWorld (log w)
       (requests w
        ++ [extraction_request prompt (_prepare_content_for_extraction pages)])).
Proof.
  intros Huse Hans.
  by rewrite (extract_in_use _ _ _ _ _ c), extract_with_client, Hans.
Qed.

Lemma X18_unparsed_answer_returned_as_is_witness :
  extract_business_data (Some "k") unparsed_service "" [small_page] None empty_world
  = (Returned None,
     mkWorld (log empty_world)
       (requests empty_world
        ++ [extraction_request "" (_prepare_content_for_extraction [small_page])])).
Proof.
  apply (X18_unparsed_answer_returned_as_is (Some "k") unparsed_service ""
           [small_page] None (mkClient "k") empty_world).
  - right. repeat split; reflexivity.
  - reflexivity.
Defined.

End OrchestratorExtras.

(** ** The instruction text against the schema *)

Section PromptExtras.
Import Str.

(** X16: the instruction text has one numbered heading per field of
    [BusinessData], in declaration order and under the declared name, with
    one exception: heading 2 reads [phoneNumbers] where the class declares
    [phoneNumber], and no heading names [phoneNumber]. *)
Theorem X16_prompt_headings_follow_schema :
  length numerals = length BusinessData.model_fields
  /\ Forall
       (fun nf : string * string =>
          str_contains
            (heading nf.1 (if String.eqb nf.2 "phoneNumber" then "phoneNumbers" else nf.2))
            extraction_prompt_text = true)
       (zip numerals (map field_name BusinessData.model_fields))
  /\ str_contains (heading "2" "phoneNumber") extraction_prompt_text = false
  /\ str_contains "phoneNumber:" extraction_prompt_text = false.
Proof.
  split; [reflexivity|]. split; [|split; vm_compute; reflexivity].
  cbv [zip zip_with numerals map BusinessData.model_fields field_name].
  repeat (constructor; [vm_compute; reflexivity|]). constructor.
Qed.

(** X17: in the text sent to the service, the packed pages come right
    after the last line of the instruction text, the label
    [Website content:], and one empty line. *)
Theorem X17_pages_follow_the_label (pages : list Page) :
  ends_with ("Website content:" +:+ LF +:+ LF
             +:+ _prepare_content_for_extraction pages)
            (contents (extraction_request extraction_prompt_text
                         (_prepare_content_for_extraction pages))).
Proof.
  exists (slice_to 5353 extraction_prompt_text).
  cbn [contents extraction_request].
  assert (Hp : extraction_prompt_text
               = slice_to 5353 extraction_prompt_text +:+ "Website content:")
    by (vm_compute; reflexivity).
  rewrite Hp at 1. by rewrite !append_assoc.
Qed.

End PromptExtras.
